(** * Reference-counted smart pointers: a shallow embedding of
    [shared.h] (control blocks, [SharedPtr], [MakeShared]) and
    [unique.h] ([UniquePtr]).

    Pointers are addresses in [Z], with [nullptr = 0].  The heap of control
    blocks, the table of live payload objects and the handle variables are
    finite maps; every method is a computation in a state-and-fault monad.
    The state carries a trace of the destruction events the code performs,
    in program order. *)

From stdpp Require Import base numbers option list gmap.

Local Open Scope Z_scope.

(** ** Machine integers and pointers *)

Definition int_min : Z := - 2 ^ 31.
Definition int_max : Z := 2 ^ 31 - 1.

(** [int] arithmetic, two's complement wrap-around written out. *)
Definition wrap_int (z : Z) : Z := (z + 2 ^ 31) mod 2 ^ 32 - 2 ^ 31.

(** Conversion [int -> size_t] (64-bit), as in [SharedPtr::UseCount]. *)
Definition to_size_t (z : Z) : Z := z mod 2 ^ 64.

Definition nullptr : Z := 0.

(** * shared.h *)

Module Shared.

(** ** Control blocks *)

(** The two classes derived from [ControlBlockBase].  [ControlBlockPtr]
    carries its field [ptr]; the [holder] of [ControlBlockMakeShared] is
    storage inside the block, at [holder_of]. *)
Inductive cb_variant : Type :=
| ControlBlockPtr (ptr : Z)
| ControlBlockMakeShared.

Record ControlBlockBase : Type := mkBlock {
  strong : Z;
  weak : Z;
  variant : cb_variant
}.

Definition with_strong (n : Z) (b : ControlBlockBase) : ControlBlockBase :=
  {| strong := n; weak := weak b; variant := variant b |}.

(** Offset of the member [holder] inside a [ControlBlockMakeShared], and the
    distance between two blocks handed out by [new]. *)
Definition holder_offset : Z := 16.
Definition block_stride : positive := 32%positive.
Definition holder_of (cb : Z) : Z := cb + holder_offset.

(** ** Handles *)

Record SharedPtr : Type := mkSharedPtr {
  cb_ : Z;
  ptr_ : Z
}.

(** The Empty state of the handle state machine. *)
Definition Empty (h : SharedPtr) : Prop := cb_ h = nullptr /\ ptr_ h = nullptr.

(** ** Events and faults *)

Inductive event : Type :=
| OnZeroStrongCall (cb : Z)   (* virtual OnZeroStrong entered on block cb *)
| OnZeroWeakCall (cb : Z)     (* virtual OnZeroWeak entered on block cb *)
| DeletePayload (p : Z)       (* delete-expression on a payload pointer *)
| DestroyAt (p : Z)           (* std::destroy_at on the holder *)
| DeleteBlock (cb : Z).       (* delete this *)

Inductive fault : Type :=
| NullControlBlock                 (* member call through a null cb_ *)
| DanglingControlBlock (cb : Z)    (* member call on a freed block *)
| NullPayload                      (* operator* on a null ptr_ *)
| DanglingPayload (p : Z)          (* operator* on a destroyed payload *)
| NoSuchHandle (h : nat).          (* the named handle is not alive *)

Inductive outcome (S A : Type) : Type :=
| Ok (a : A) (s : S)
| Fault (f : fault).
Arguments Ok {S A} a s.
Arguments Fault {S A} f.

#[global] Instance event_eq_dec : EqDecision event.
Proof. solve_decision. Defined.

(** Number of delete-expressions applied to payload address [p]. *)
Definition deletions (p : Z) (t : list event) : nat :=
  length (filter (λ e, e = DeletePayload p) t).

Definition fired (e : event) (t : list event) : nat :=
  length (filter (λ e', e' = e) t).

Section Model.
Context {T : Type}.

Record State : Type := mkState {
  blocks : gmap Z ControlBlockBase;   (* live control blocks *)
  objects : gmap Z T;                 (* live payload objects *)
  handles : gmap nat SharedPtr;       (* live SharedPtr variables *)
  brk : positive;                     (* next address returned by new *)
  trace : list event
}.

Definition set_blocks (f : gmap Z ControlBlockBase → gmap Z ControlBlockBase)
    (s : State) : State :=
  mkState (f (blocks s)) (objects s) (handles s) (brk s) (trace s).
Definition set_objects (f : gmap Z T → gmap Z T) (s : State) : State :=
  mkState (blocks s) (f (objects s)) (handles s) (brk s) (trace s).
Definition set_handles (f : gmap nat SharedPtr → gmap nat SharedPtr)
    (s : State) : State :=
  mkState (blocks s) (objects s) (f (handles s)) (brk s) (trace s).
Definition set_brk (f : positive → positive) (s : State) : State :=
  mkState (blocks s) (objects s) (handles s) (f (brk s)) (trace s).
Definition set_trace (f : list event → list event) (s : State) : State :=
  mkState (blocks s) (objects s) (handles s) (brk s) (f (trace s)).

(** *** The monad *)

Definition M (A : Type) : Type := State → outcome State A.

#[global] Instance M_ret : MRet M := λ A a s, Ok a s.
#[global] Instance M_bind : MBind M := λ A B k m s,
  match m s with
  | Ok a s' => k a s'
  | Fault f => Fault f
  end.

Definition raise {A} (f : fault) : M A := λ _, Fault f.
Definition modify (f : State → State) : M unit := λ s, Ok tt (f s).
Definition emit (e : event) : M unit := modify (set_trace (λ t, t ++ [e])).

(** *** Heap primitives *)

(** Reading a member through a [ControlBlockBase*]. *)
Definition load_block (c : Z) : M ControlBlockBase := λ s,
  if decide (c = nullptr) then Fault NullControlBlock
  else match blocks s !! c with
       | Some b => Ok b s
       | None => Fault (DanglingControlBlock c)
       end.

Definition store_block (c : Z) (b : ControlBlockBase) : M unit :=
  modify (set_blocks (insert c b)).

(** [new ControlBlock...]: a fresh non-null address. *)
Definition new_block (b : ControlBlockBase) : M Z := λ s,
  let c := Z.pos (brk s) in
  Ok c (set_brk (λ n, (n + block_stride)%positive) (set_blocks (insert c b) s)).

(** [delete p] on a payload pointer; deleting null does nothing. *)
Definition delete_T (p : Z) : M unit :=
  if decide (p = nullptr) then mret tt
  else emit (DeletePayload p);; modify (set_objects (delete p)).

Definition destroy_at (p : Z) : M unit :=
  emit (DestroyAt p);; modify (set_objects (delete p)).

Definition load_handle (h : nat) : M SharedPtr := λ s,
  match handles s !! h with
  | Some v => Ok v s
  | None => Fault (NoSuchHandle h)
  end.

Definition get_cb (h : nat) : M Z := v ← load_handle h; mret (cb_ v).
Definition get_ptr (h : nat) : M Z := v ← load_handle h; mret (ptr_ v).
Definition set_cb (h : nat) (c : Z) : M unit :=
  v ← load_handle h; modify (set_handles (insert h (mkSharedPtr c (ptr_ v)))).
Definition set_ptr (h : nat) (p : Z) : M unit :=
  v ← load_handle h; modify (set_handles (insert h (mkSharedPtr (cb_ v) p))).

(** *** ControlBlockBase *)

Definition IncreaseStrong (this : Z) : M unit :=
  b ← load_block this;
  store_block this (with_strong (wrap_int (strong b + 1)) b).

Definition UseCount (this : Z) : M Z :=
  b ← load_block this; mret (strong b).

(** Virtual dispatch on the dynamic type of the block. *)
Definition OnZeroStrong (this : Z) : M unit :=
  b ← load_block this;
  emit (OnZeroStrongCall this);;
  match variant b with
  | ControlBlockPtr p => delete_T p
  | ControlBlockMakeShared => destroy_at (holder_of this)
  end.

Definition OnZeroWeak (this : Z) : M unit :=
  _ ← load_block this;
  emit (OnZeroWeakCall this);;
  emit (DeleteBlock this);;
  modify (set_blocks (delete this)).

Definition DecreaseStrong (this : Z) : M unit :=
  b ← load_block this;
  let n := wrap_int (strong b - 1) in
  store_block this (with_strong n b);;
  if decide (n = 0) then OnZeroStrong this;; OnZeroWeak this
  else mret tt.

(** What the body of [OnZeroStrong] does to the payload, per variant. *)
Definition release_events (this : Z) (v : cb_variant) : list event :=
  match v with
  | ControlBlockPtr p => if decide (p = nullptr) then [] else [DeletePayload p]
  | ControlBlockMakeShared => [DestroyAt (holder_of this)]
  end.

(** *** SharedPtr: constructors *)

Definition SharedPtr_default (this : nat) : M unit :=
  c ← new_block (mkBlock 1 1 (ControlBlockPtr nullptr));
  modify (set_handles (insert this (mkSharedPtr c nullptr))).

Definition SharedPtr_null (this : nat) : M unit :=
  modify (set_handles (insert this (mkSharedPtr nullptr nullptr))).

Definition SharedPtr_ptr (this : nat) (ptr : Z) : M unit :=
  c ← new_block (mkBlock 1 1 (ControlBlockPtr ptr));
  modify (set_handles (insert this (mkSharedPtr c ptr))).

(** The member template [SharedPtr(const SharedPtr<X>&)].  A template is
    never the copy constructor: overload resolution selects it for a source
    of another handle type ([X] different from [T]), and the implicitly
    declared copy constructor [SharedPtr_copy_implicit] for a source of the
    same type. *)
Definition SharedPtr_copy (this other : nat) : M unit :=
  c ← get_cb other;
  IncreaseStrong c;;
  p ← get_ptr other;
  modify (set_handles (insert this (mkSharedPtr c p))).

(** The implicitly declared copy constructor [SharedPtr(const SharedPtr&)],
    which the class keeps beside its member templates: it copies the two
    members and calls nothing. *)
Definition SharedPtr_copy_implicit (this other : nat) : M unit :=
  c ← get_cb other;
  p ← get_ptr other;
  modify (set_handles (insert this (mkSharedPtr c p))).

(** The member template [SharedPtr(SharedPtr<X>&&)]; the class has no
    implicit move constructor (it declares a destructor), so every rvalue
    source selects it. *)
Definition SharedPtr_move (this other : nat) : M unit :=
  c ← get_cb other;
  set_cb other nullptr;;
  p ← get_ptr other;
  set_ptr other nullptr;;
  modify (set_handles (insert this (mkSharedPtr c p))).

Definition SharedPtr_alias (this other : nat) (ptr : Z) : M unit :=
  c ← get_cb other;
  IncreaseStrong c;;
  modify (set_handles (insert this (mkSharedPtr c ptr))).

(** The constructor taking a control block and a payload pointer, used by
    [MakeShared]. *)
Definition SharedPtr_raw (this : nat) (cb ptr : Z) : M unit :=
  modify (set_handles (insert this (mkSharedPtr cb ptr))).

(** *** Observers *)

Definition Get (this : nat) : M Z := get_ptr this.

Definition deref (this : nat) : M T :=
  p ← Get this;
  if decide (p = nullptr) then raise NullPayload
  else λ s, match objects s !! p with
            | Some v => Ok v s
            | None => Fault (DanglingPayload p)
            end.

Definition SharedPtr_UseCount (this : nat) : M Z :=
  c ← get_cb this; n ← UseCount c; mret (to_size_t n).

Definition to_bool (this : nat) : M bool :=
  p ← get_ptr this; mret (bool_decide (p ≠ nullptr)).

(** [operator==]: the two [ptr_] members, compared as [void*]. *)
Definition op_eq (left right : nat) : M bool :=
  l ← get_ptr left; r ← get_ptr right; mret (bool_decide (l = r)).

(** *** Assignment *)

(** The member template [operator=(const SharedPtr<X>&)], selected for a
    source of another handle type; a source of the same type selects the
    implicitly declared [assign_copy_implicit]. *)
Definition assign_copy (this other : nat) : M unit :=
  same ← op_eq other this;
  if same : bool then mret tt
  else
    c ← get_cb this;
    DecreaseStrong c;;
    oc ← get_cb other;
    set_cb this oc;;
    IncreaseStrong oc;;
    op ← get_ptr other;
    set_ptr this op.

(** The implicitly declared copy assignment [operator=(const SharedPtr&)]:
    member-wise, [cb_] then [ptr_], with no guard and no call. *)
Definition assign_copy_implicit (this other : nat) : M unit :=
  c ← get_cb other;
  set_cb this c;;
  p ← get_ptr other;
  set_ptr this p.

(** The member template [operator=(SharedPtr<X>&&)], selected for every
    rvalue source. *)
Definition assign_move (this other : nat) : M unit :=
  same ← op_eq other this;
  if same : bool then mret tt
  else
    c ← get_cb this;
    DecreaseStrong c;;
    oc ← get_cb other;
    set_cb this oc;;
    IncreaseStrong oc;;
    op ← get_ptr other;
    set_ptr this op;;
    set_ptr other nullptr;;
    set_cb other nullptr.

(** *** Destructor and modifiers *)

Definition SharedPtr_dtor (this : nat) : M unit :=
  c ← get_cb this;
  DecreaseStrong c;;
  p ← get_ptr this;
  (if decide (p ≠ nullptr) then delete_T p else mret tt);;
  modify (set_handles (delete this)).

Definition Reset (this : nat) : M unit :=
  c ← get_cb this;
  (if decide (c ≠ nullptr) then DecreaseStrong c else mret tt);;
  set_cb this nullptr;;
  p ← get_ptr this;
  (if decide (p ≠ nullptr) then delete_T p else mret tt);;
  set_ptr this nullptr.


Definition Swap (this other : nat) : M unit :=
  a ← load_handle this;
  b ← load_handle other;
  modify (set_handles (insert this b));;
  modify (set_handles (insert other a)).

(** *** MakeShared *)

Definition MakeShared (this : nat) (v : T) : M unit :=
  cb ← new_block (mkBlock 1 1 ControlBlockMakeShared);
  modify (set_objects (insert (holder_of cb) v));;
  SharedPtr_raw this cb (holder_of cb).

(** [new T(v)] by the caller, at address [p]. *)
Definition new_T (p : Z) (v : T) : M unit :=
  modify (set_objects (insert p v)).

Definition init : State := mkState ∅ ∅ ∅ 4096%positive [].

End Model.

(** ** Programs used as concrete inputs (payload type [int]) *)

(** The state a computation ends in; a faulting run leaves its input. *)
Definition exec {T A} (m : M (T:=T) A) (s : State) : State :=
  match m s with
  | Ok _ s' => s'
  | Fault _ => s
  end.

(** [SharedPtr<int> h(new int(7));] with the payload at address 100. *)
Definition one_owner : M (T:=Z) unit :=
  new_T 100 7;; SharedPtr_ptr 0%nat 100.

(** [SharedPtr<int> h1(new int(7)); SharedPtr<const int> h2(h1);]: the copy
    converts, so it runs the member template. *)
Definition two_owners : M (T:=Z) unit :=
  new_T 100 7;; SharedPtr_ptr 1%nat 100;; SharedPtr_copy 2%nat 1%nat.

(** [auto h1 = MakeShared<int>(42); SharedPtr<const int> h2 = h1;] *)
Definition make_shared_pair : M (T:=Z) unit :=
  MakeShared 1%nat 42;; SharedPtr_copy 2%nat 1%nat.

(** [auto h1 = MakeShared<int>(42); SharedPtr<const int> h2; h2 = h1;] *)
Definition make_shared_assigned : M (T:=Z) unit :=
  MakeShared 1%nat 42;; SharedPtr_default 2%nat;; assign_copy 2%nat 1%nat.

(** [SharedPtr<int> a(new int(7)); SharedPtr<int> b(new int(8));] *)
Definition two_groups : M (T:=Z) unit :=
  new_T 100 7;; new_T 200 8;; SharedPtr_ptr 1%nat 100;; SharedPtr_ptr 2%nat 200.

(** Two independent groups built on one raw pointer. *)
Definition same_address_two_groups : M (T:=Z) unit :=
  new_T 100 7;; SharedPtr_ptr 1%nat 100;; SharedPtr_ptr 2%nat 100.

(** Two default-constructed handles [a] and [b]: null payload pointers and
    distinct control blocks.  Their handle types decide which copy member a
    later [a = b] selects. *)
Definition two_defaults : M (T:=Z) unit :=
  SharedPtr_default 1%nat;; SharedPtr_default 2%nat.

(** A handle [a] constructed from [nullptr] and an owner
    [SharedPtr<int> b(new int(8))].  The handle type of [a] decides which
    copy member a later [a = b] selects. *)
Definition null_and_owner : M (T:=Z) unit :=
  new_T 200 8;; SharedPtr_null 1%nat;; SharedPtr_ptr 2%nat 200.

(** [SharedPtr<int> a(new int(7)); SharedPtr<int> b(std::move(a));] *)
Definition moved_from_owner : M (T:=Z) unit :=
  new_T 100 7;; SharedPtr_ptr 1%nat 100;; SharedPtr_move 2%nat 1%nat.

(** [auto h = MakeShared<int>(42);] *)
Definition make_shared_owner : M (T:=Z) unit := MakeShared 1%nat 42.

(** [SharedPtr<int> h1(new int(7)); SharedPtr<int> h2(h1);]: source and copy
    have one type, so the copy is the implicit member-wise one. *)
Definition two_handles_same_type : M (T:=Z) unit :=
  new_T 100 7;; SharedPtr_ptr 1%nat 100;; SharedPtr_copy_implicit 2%nat 1%nat.

(** [auto h1 = MakeShared<int>(42); SharedPtr<int> h2 = h1;] *)
Definition make_shared_same_type : M (T:=Z) unit :=
  MakeShared 1%nat 42;; SharedPtr_copy_implicit 2%nat 1%nat.

(** ** State transformers and programs used in the further statements *)

Section Derived.
Context {T : Type}.

(** The payload objects left by the body of [OnZeroStrong]. *)
Definition release_objects (this : Z) (v : cb_variant) (o : gmap Z T)
    : gmap Z T :=
  match v with
  | ControlBlockPtr p => if decide (p = nullptr) then o else delete p o
  | ControlBlockMakeShared => delete (holder_of this) o
  end.

(** The state left by the zero-strong path of [DecreaseStrong] on the live
    block [b] at [c]. *)
Definition released (c : Z) (b : ControlBlockBase) (s : State (T:=T))
    : State :=
  mkState (delete c (blocks s))
          (release_objects c (variant b) (objects s))
          (handles s) (brk s)
          (trace s ++ [OnZeroStrongCall c] ++ release_events c (variant b)
                   ++ [OnZeroWeakCall c; DeleteBlock c]).

(** The events of the handle-level [if (ptr_) delete ptr_;]. *)
Definition handle_delete_events (p : Z) : list event :=
  if decide (p = nullptr) then [] else [DeletePayload p].

Definition handle_delete_objects (p : Z) (o : gmap Z T) : gmap Z T :=
  if decide (p = nullptr) then o else delete p o.

(** [k] converting copy constructions from [src] (the member template), into
    the handles [dst], [dst+1], ... *)
Fixpoint clone_n (src dst : nat) (k : nat) : M (T:=T) unit :=
  match k with
  | O => mret tt
  | S k' => SharedPtr_copy dst src;; clone_n src (S dst) k'
  end.

(** [k] copy constructions from a source of the same handle type (the
    implicit copy constructor). *)
Fixpoint clone_implicit_n (src dst : nat) (k : nat) : M (T:=T) unit :=
  match k with
  | O => mret tt
  | S k' => SharedPtr_copy_implicit dst src;; clone_implicit_n src (S dst) k'
  end.

End Derived.

End Shared.

(** * unique.h *)

Module Unique.
Section Model.
Context {Deleter : Type} `{Inhabited Deleter}.

Record UniquePtr : Type := mkUniquePtr {
  ptr_ : Z;
  del_ : Deleter
}.

(** The calls [del_(p)] made so far, oldest first. *)
Definition calls : Type := list (Deleter * Z).

Definition invoke (d : Deleter) (p : Z) (w : calls) : calls := w ++ [(d, p)].

(** The objects handed to a deleter: the non-null arguments. *)
Definition destroyed (w : calls) : list Z :=
  filter (λ p, p ≠ nullptr) (w.*2).

Definition non_null (l : list Z) : list Z := filter (λ p, p ≠ nullptr) l.

(** [Deleter()] is the inhabitant of the deleter type. *)
Definition UniquePtr_default : UniquePtr := mkUniquePtr nullptr inhabitant.
Definition UniquePtr_ptr (elem : Z) : UniquePtr := mkUniquePtr elem inhabitant.
Definition UniquePtr_ptr_del (elem : Z) (d : Deleter) : UniquePtr :=
  mkUniquePtr elem d.

Definition GetDeleter (this : UniquePtr) : Deleter := del_ this.

Definition assign_null (this : UniquePtr) (w : calls) : UniquePtr * calls :=
  (mkUniquePtr nullptr (del_ this), invoke (del_ this) (ptr_ this) w).

(** [operator=(UniquePtr&&)] returns the new [*this] and the new [u_ptr]. *)
Definition assign_move (this u_ptr : UniquePtr) (w : calls)
    : UniquePtr * UniquePtr * calls :=
  if decide (ptr_ u_ptr = ptr_ this) then (this, u_ptr, w)
  else (mkUniquePtr (ptr_ u_ptr) (del_ u_ptr),
        mkUniquePtr nullptr (del_ u_ptr),
        invoke (del_ this) (ptr_ this) w).

Definition UniquePtr_dtor (this : UniquePtr) (w : calls) : calls :=
  invoke (del_ this) (ptr_ this) w.

Definition Release (this : UniquePtr) (w : calls) : Z * UniquePtr * calls :=
  let temp_ptr := ptr_ this in
  (temp_ptr, mkUniquePtr nullptr (del_ this), w).

Definition Reset (this : UniquePtr) (p : Z) (w : calls) : UniquePtr * calls :=
  let old := ptr_ this in
  (mkUniquePtr p (del_ this),
   if decide (old ≠ nullptr) then invoke (del_ this) old w else w).

Definition Swap (this other : UniquePtr) : UniquePtr * UniquePtr :=
  (mkUniquePtr (ptr_ other) (del_ other), mkUniquePtr (ptr_ this) (del_ this)).

Definition Get (this : UniquePtr) : Z := ptr_ this.

Definition to_bool (this : UniquePtr) : bool :=
  negb (bool_decide (ptr_ this = nullptr)).

End Model.
End Unique.

(** * Properties of shared.h *)

Module SharedSpec.
Import Shared.

Lemma wrap_int_id z : int_min <= z <= int_max → wrap_int z = z.
Proof.
  unfold int_min, int_max, wrap_int. intros Hz.
  rewrite Z.mod_small by lia. lia.
Qed.

Ltac unfold_monad :=
  unfold mbind, M_bind, mret, M_ret, modify, emit, raise in *.

Section Facts.
Context {T : Type}.
Implicit Types (s : State (T:=T)) (v : SharedPtr) (b : ControlBlockBase).

(** *** Running the primitives *)

Lemma load_handle_run s h v :
  handles s !! h = Some v → load_handle h s = Ok v s.
Proof. intros Hh. unfold load_handle. by rewrite Hh. Qed.

Lemma get_cb_run s h v :
  handles s !! h = Some v → get_cb h s = Ok (cb_ v) s.
Proof.
  intros Hh. unfold get_cb. unfold_monad. by rewrite (load_handle_run s h v).
Qed.

Lemma get_ptr_run s h v :
  handles s !! h = Some v → get_ptr h s = Ok (ptr_ v) s.
Proof.
  intros Hh. unfold get_ptr. unfold_monad. by rewrite (load_handle_run s h v).
Qed.

Lemma op_eq_run s l r vl vr :
  handles s !! l = Some vl → handles s !! r = Some vr →
  op_eq l r s = Ok (bool_decide (ptr_ vl = ptr_ vr)) s.
Proof.
  intros Hl Hr. unfold op_eq. unfold_monad.
  by rewrite (get_ptr_run s l vl), (get_ptr_run s r vr).
Qed.

Lemma set_cb_run s h c v :
  handles s !! h = Some v →
  set_cb h c s = Ok tt (set_handles (insert h (mkSharedPtr c (ptr_ v))) s).
Proof.
  intros Hh. unfold set_cb. unfold_monad.
  by rewrite (load_handle_run s h v).
Qed.

Lemma set_ptr_run s h p v :
  handles s !! h = Some v →
  set_ptr h p s = Ok tt (set_handles (insert h (mkSharedPtr (cb_ v) p)) s).
Proof.
  intros Hh. unfold set_ptr. unfold_monad.
  by rewrite (load_handle_run s h v).
Qed.

Lemma load_block_null s : load_block nullptr s = Fault NullControlBlock.
Proof. reflexivity. Qed.

Lemma load_block_run s c b :
  c ≠ nullptr → blocks s !! c = Some b → load_block c s = Ok b s.
Proof.
  intros Hc Hb. unfold load_block. rewrite decide_False by done. by rewrite Hb.
Qed.

Lemma DecreaseStrong_null s : DecreaseStrong nullptr s = Fault NullControlBlock.
Proof. reflexivity. Qed.

(** The guard shared by both assignment operators: equal payload pointers
    make the operator return at once. *)
Lemma assign_copy_guard s this other vt vo :
  handles s !! this = Some vt → handles s !! other = Some vo →
  ptr_ vo = ptr_ vt → assign_copy this other s = Ok tt s.
Proof.
  intros Ht Ho Heq. unfold assign_copy. unfold_monad.
  rewrite (op_eq_run s other this vo vt) by done.
  by rewrite bool_decide_true.
Qed.

Lemma assign_move_guard s this other vt vo :
  handles s !! this = Some vt → handles s !! other = Some vo →
  ptr_ vo = ptr_ vt → assign_move this other s = Ok tt s.
Proof.
  intros Ht Ho Heq. unfold assign_move. unfold_monad.
  rewrite (op_eq_run s other this vo vt) by done.
  by rewrite bool_decide_true.
Qed.

(** The implicit copy assignment: the target becomes a copy of the source
    and nothing else changes. *)
Lemma assign_copy_implicit_run s this other vt vo :
  handles s !! this = Some vt → handles s !! other = Some vo →
  assign_copy_implicit this other s = Ok tt (set_handles (insert this vo) s).
Proof.
  intros Ht Ho. unfold assign_copy_implicit. unfold mbind, M_bind.
  rewrite (get_cb_run s other vo Ho).
  rewrite (set_cb_run s this (cb_ vo) vt Ht).
  set (s1 := set_handles _ s).
  assert (H1 : ∃ v1, handles s1 !! other = Some v1 ∧ ptr_ v1 = ptr_ vo).
  { subst s1. simpl. destruct (decide (this = other)) as [->|Hne].
    - rewrite lookup_insert_eq. eexists. split; [done|]. simpl. congruence.
    - rewrite lookup_insert_ne by done. by exists vo. }
  destruct H1 as (v1 & H1 & Hp1).
  rewrite (get_ptr_run s1 other v1 H1), Hp1.
  rewrite (set_ptr_run s1 this (ptr_ vo) (mkSharedPtr (cb_ vo) (ptr_ vt)))
    by (subst s1; simpl; apply lookup_insert_eq).
  subst s1. unfold set_handles. simpl. rewrite insert_insert_eq.
  by destruct vo.
Qed.

Lemma set_handles_insert_id s h v :
  handles s !! h = Some v → set_handles (insert h v) s = s.
Proof.
  intros Hh. destruct s as [bl ob hs br tr]. unfold set_handles. simpl in *.
  f_equal. by apply insert_id.
Qed.

(** Past the guard, both operators call [DecreaseStrong] through [cb_]. *)
Lemma assign_copy_past_guard s this other vt vo :
  handles s !! this = Some vt → handles s !! other = Some vo →
  ptr_ vo ≠ ptr_ vt → cb_ vt = nullptr →
  assign_copy this other s = Fault NullControlBlock.
Proof.
  intros Ht Ho Hne Hnull. unfold assign_copy. unfold_monad.
  rewrite (op_eq_run s other this vo vt) by done.
  rewrite bool_decide_false by done.
  rewrite (get_cb_run s this vt) by done. by rewrite Hnull.
Qed.

Lemma assign_move_past_guard s this other vt vo :
  handles s !! this = Some vt → handles s !! other = Some vo →
  ptr_ vo ≠ ptr_ vt → cb_ vt = nullptr →
  assign_move this other s = Fault NullControlBlock.
Proof.
  intros Ht Ho Hne Hnull. unfold assign_move. unfold_monad.
  rewrite (op_eq_run s other this vo vt) by done.
  rewrite bool_decide_false by done.
  rewrite (get_cb_run s this vt) by done. by rewrite Hnull.
Qed.

(** *** ControlBlockBase::DecreaseStrong *)

(** The last decrement, with the handles it leaves alone. *)
Lemma DecreaseStrong_run_zero s c b :
  c ≠ nullptr → blocks s !! c = Some b → strong b = 1 →
  ∃ s', DecreaseStrong c s = Ok tt s' ∧
    trace s' = trace s ++ [OnZeroStrongCall c]
                 ++ release_events c (variant b)
                 ++ [OnZeroWeakCall c; DeleteBlock c] ∧
    handles s' = handles s.
Proof.
  intros Hc Hb Hone. unfold DecreaseStrong. unfold_monad.
  rewrite (load_block_run s c b) by done. rewrite Hone. simpl.
  unfold store_block, OnZeroStrong, OnZeroWeak. unfold_monad.
  set (s1 := set_blocks _ s).
  assert (Hs1 : blocks s1 !! c = Some (with_strong 0 b))
    by (subst s1; simpl; apply lookup_insert_eq).
  rewrite (load_block_run s1 c _ Hc Hs1). simpl.
  destruct (variant b) as [p|]; simpl.
  - unfold delete_T. case_decide; unfold_monad; simpl;
      rewrite (load_block_run _ c _ Hc) by (simpl; exact Hs1);
      eexists; (split; [reflexivity|]); simpl;
      by rewrite <- !app_assoc.
  - unfold destroy_at. unfold_monad. simpl.
    rewrite (load_block_run _ c _ Hc) by (simpl; exact Hs1).
    eexists. split; [reflexivity|]. simpl. by rewrite <- !app_assoc.
Qed.

(** C5: [DecreaseStrong] lowers [strong] by one.  Exactly when the new value
    is zero, [OnZeroStrong] runs first (releasing the payload) and
    [OnZeroWeak] second (freeing the block); otherwise no callback runs and
    the block stays, with its counter one lower. *)
Theorem DecreaseStrong_spec s c b :
  c ≠ nullptr → blocks s !! c = Some b → int_min < strong b <= int_max →
  ∃ s', DecreaseStrong c s = Ok tt s' ∧
    if decide (strong b - 1 = 0)
    then trace s' = trace s ++ [OnZeroStrongCall c]
                      ++ release_events c (variant b)
                      ++ [OnZeroWeakCall c; DeleteBlock c]
         ∧ blocks s' !! c = None
    else trace s' = trace s
         ∧ blocks s' !! c = Some (with_strong (strong b - 1) b).
Proof.
  intros Hc Hb Hrange. unfold DecreaseStrong. unfold_monad.
  rewrite (load_block_run s c b) by done.
  rewrite wrap_int_id by (unfold int_min, int_max in *; lia).
  unfold store_block. unfold_monad.
  case_decide as Hz.
  - unfold OnZeroStrong, OnZeroWeak. unfold_monad.
    set (s1 := set_blocks _ s).
    assert (Hs1 : blocks s1 !! c = Some (with_strong (strong b - 1) b))
      by (subst s1; simpl; apply lookup_insert_eq).
    rewrite (load_block_run s1 c _ Hc Hs1). simpl.
    destruct (variant b) as [p|]; simpl.
    + unfold delete_T. case_decide as Hp; unfold_monad; simpl.
      * rewrite (load_block_run _ c _ Hc) by (simpl; exact Hs1).
        eexists. split; [reflexivity|]. simpl.
        rewrite <- !app_assoc. split; [done|]. apply lookup_delete_eq.
      * rewrite (load_block_run _ c _ Hc) by (simpl; exact Hs1).
        eexists. split; [reflexivity|]. simpl.
        rewrite <- !app_assoc. split; [done|]. apply lookup_delete_eq.
    + unfold destroy_at. unfold_monad. simpl.
      rewrite (load_block_run _ c _ Hc) by (simpl; exact Hs1).
      eexists. split; [reflexivity|]. simpl.
      rewrite <- !app_assoc. split; [done|]. apply lookup_delete_eq.
  - eexists. split; [reflexivity|]. simpl. split; [done|].
    apply lookup_insert_eq.
Qed.

(** *** Construction *)

(** C3 (amended): the default constructor leaves the payload pointer null
    but gives the handle a control block of its own, created by [new] with
    [strong = weak = 1] and a null tracked pointer; only construction from
    [nullptr] yields the Empty state. *)
Theorem SharedPtr_default_state s h :
  ∃ s', SharedPtr_default h s = Ok tt s' ∧
    handles s' !! h = Some (mkSharedPtr (Z.pos (brk s)) nullptr) ∧
    Z.pos (brk s) ≠ nullptr ∧
    blocks s' !! Z.pos (brk s) = Some (mkBlock 1 1 (ControlBlockPtr nullptr)) ∧
    trace s' = trace s ∧
    ∃ s0 v, SharedPtr_null h s = Ok tt s0 ∧ handles s0 !! h = Some v ∧ Empty v.
Proof.
  eexists. split; [reflexivity|]. simpl.
  split; [apply lookup_insert_eq|].
  split; [done|].
  split; [apply lookup_insert_eq|].
  split; [done|].
  eexists _, _. split; [reflexivity|]. simpl.
  split; [apply lookup_insert_eq|]. by split.
Qed.

(** *** Assignment guard *)

(** C6: self-assignment changes nothing.  The template returns at its guard;
    the implicit member-wise operator, which [h = h] selects, writes the
    handle's own two pointers back.  Either way the whole state, and with it
    [Get], [UseCount] and every counter, is as before. *)
Theorem self_assignment_noop s h v :
  handles s !! h = Some v →
  assign_copy h h s = Ok tt s ∧
  (assign_copy h h;; Get h) s = Get h s ∧
  (assign_copy h h;; SharedPtr_UseCount h) s = SharedPtr_UseCount h s ∧
  assign_copy_implicit h h s = Ok tt s.
Proof.
  intros Hh.
  assert (Hnoop : assign_copy h h s = Ok tt s)
    by (by apply (assign_copy_guard s h h v v)).
  split; [done|]. unfold_monad. rewrite Hnoop. split; [done|]. split; [done|].
  rewrite (assign_copy_implicit_run s h h v v) by done.
  by rewrite (set_handles_insert_id s h v).
Qed.

(** C10 (amended): the guard of the two assignment templates (converting
    copy assignment and move assignment) looks at the payload pointers only;
    whenever they are equal the assignment changes nothing, whatever the two
    control blocks are.  Copy assignment between handles of one type is the
    implicit member-wise operator, which has no guard: the target takes both
    pointers of the source, and no counter changes. *)
Theorem guard_compares_payload_pointers s (a b : nat) va vb :
  handles s !! a = Some va → handles s !! b = Some vb →
  ptr_ va = ptr_ vb →
  assign_copy a b s = Ok tt s ∧ assign_move a b s = Ok tt s ∧
  assign_copy_implicit a b s = Ok tt (set_handles (insert a vb) s).
Proof.
  intros Ha Hb Heq. split_and!.
  - by apply (assign_copy_guard s a b va vb).
  - by apply (assign_move_guard s a b va vb).
  - by apply (assign_copy_implicit_run s a b va vb).
Qed.

(** *** Equality *)

(** C7: [==] is equality of the payload pointers; the control pointers play
    no part, and two Empty handles are equal. *)
Theorem op_eq_compares_payload s (a b : nat) va vb :
  handles s !! a = Some va → handles s !! b = Some vb →
  ∃ r, op_eq a b s = Ok r s ∧
    (r = true ↔ ptr_ va = ptr_ vb) ∧
    (Empty va → Empty vb → r = true).
Proof.
  intros Ha Hb. exists (bool_decide (ptr_ va = ptr_ vb)).
  split; [by apply op_eq_run|].
  split; [apply bool_decide_eq_true|].
  intros [_ Hpa] [_ Hpb]. apply bool_decide_eq_true. congruence.
Qed.

(** *** Null control pointer *)

(** C9 (amended): with a null [cb_], the destructor faults on its first
    statement, and so do the two assignment templates (converting copy
    assignment and move assignment) from a handle whose payload pointer
    differs.  Copy assignment from a handle of the same type is the implicit
    member-wise operator: it goes through no control pointer and returns
    normally, the target holding the source's two pointers. *)
Theorem null_control_block_dereferenced s h v :
  handles s !! h = Some v → cb_ v = nullptr →
  SharedPtr_dtor h s = Fault NullControlBlock ∧
  ∀ o vo, handles s !! o = Some vo → ptr_ vo ≠ ptr_ v →
    assign_copy h o s = Fault NullControlBlock ∧
    assign_move h o s = Fault NullControlBlock ∧
    assign_copy_implicit h o s = Ok tt (set_handles (insert h vo) s).
Proof.
  intros Hh Hnull. split.
  - unfold SharedPtr_dtor. unfold_monad.
    rewrite (get_cb_run s h v) by done. by rewrite Hnull.
  - intros o vo Ho Hne. split_and!.
    + by apply (assign_copy_past_guard s h o v vo).
    + by apply (assign_move_past_guard s h o v vo).
    + by apply (assign_copy_implicit_run s h o v vo).
Qed.

(** *** Destruction of a handle built from a raw pointer *)

(** Whatever the state, the sole owner of a non-null raw pointer applies
    [delete] to it twice when destroyed: once in [OnZeroStrong], once in the
    destructor of the handle. *)
Lemma sole_owner_dtor_trace s h p :
  p ≠ nullptr →
  ∃ s', (SharedPtr_ptr h p;; SharedPtr_dtor h) s = Ok tt s' ∧
    trace s' = trace s ++
      [OnZeroStrongCall (Z.pos (brk s)); DeletePayload p;
       OnZeroWeakCall (Z.pos (brk s)); DeleteBlock (Z.pos (brk s));
       DeletePayload p].
Proof.
  intros Hp. unfold SharedPtr_ptr, SharedPtr_dtor, new_block. unfold_monad.
  set (c := Z.pos (brk s)).
  set (s1 := set_handles _ _).
  assert (Hh : handles s1 !! h = Some (mkSharedPtr c p))
    by (subst s1; simpl; apply lookup_insert_eq).
  assert (Hb : blocks s1 !! c = Some (mkBlock 1 1 (ControlBlockPtr p)))
    by (subst s1; simpl; apply lookup_insert_eq).
  rewrite (get_cb_run s1 h _ Hh). simpl.
  destruct (DecreaseStrong_run_zero s1 c (mkBlock 1 1 (ControlBlockPtr p)))
    as (s2 & Hrun & Htr & Hhs); [done | done | reflexivity |].
  rewrite Hrun.
  rewrite (get_ptr_run s2 h (mkSharedPtr c p)) by (by rewrite Hhs).
  simpl. rewrite decide_True by done.
  unfold delete_T. rewrite decide_False by done. unfold_monad.
  eexists. split; [reflexivity|]. simpl. rewrite Htr. simpl.
  rewrite decide_False by done. subst s1. simpl.
  by rewrite <- !app_assoc.
Qed.

End Facts.

(** ** The programs of [Shared], run from the initial state *)

(** C3, as stated, fails: after default construction the control pointer is
    not null, so the handle is not Empty. *)
Lemma default_ctor_not_empty :
  ∃ s' v, SharedPtr_default (T:=Z) 0%nat init = Ok tt s' ∧
    handles s' !! 0%nat = Some v ∧ ¬ Empty v.
Proof.
  exists (exec (SharedPtr_default 0%nat) init), (mkSharedPtr 4096 nullptr).
  split; [vm_compute; reflexivity|]. split; [vm_compute; reflexivity|].
  intros [Hcb _]. discriminate Hcb.
Qed.

(** C9, as stated, fails for copy assignment between handles of one type:
    with [SharedPtr<int> a(nullptr); SharedPtr<int> b(new int(8));] the
    assignment [a = b] meets no null control pointer; it returns with [a]
    holding the pointers of [b], and nothing is destroyed. *)
Lemma same_type_assignment_into_null_returns :
  handles (exec null_and_owner init) !! 1%nat
    = Some (mkSharedPtr nullptr nullptr) ∧
  handles (exec null_and_owner init) !! 2%nat = Some (mkSharedPtr 4096 200) ∧
  ∃ s', assign_copy_implicit 1%nat 2%nat (exec null_and_owner init)
          = Ok tt s' ∧
    handles s' !! 1%nat = Some (mkSharedPtr 4096 200) ∧
    trace s' = [].
Proof.
  split; [vm_compute; reflexivity|]. split; [vm_compute; reflexivity|].
  exists (exec (null_and_owner;; assign_copy_implicit 1%nat 2%nat) init).
  split_and!; vm_compute; reflexivity.
Qed.

(** C10, as stated, fails for copy assignment between handles of one type:
    with [SharedPtr<int> a; SharedPtr<int> b;] (both payload pointers null,
    two control blocks) [a = b] is not a no-op: [a] leaves with the control
    block of [b] instead of its own. *)
Lemma same_type_assignment_takes_control_block :
  handles (exec two_defaults init) !! 1%nat = Some (mkSharedPtr 4096 nullptr) ∧
  handles (exec two_defaults init) !! 2%nat = Some (mkSharedPtr 4128 nullptr) ∧
  ∃ s', assign_copy_implicit 1%nat 2%nat (exec two_defaults init) = Ok tt s' ∧
    handles s' !! 1%nat = Some (mkSharedPtr 4128 nullptr) ∧
    s' ≠ exec two_defaults init.
Proof.
  split; [vm_compute; reflexivity|]. split; [vm_compute; reflexivity|].
  exists (exec (two_defaults;; assign_copy_implicit 1%nat 2%nat) init).
  split_and!; [vm_compute; reflexivity | vm_compute; reflexivity |].
  intros Heq.
  assert (Hh : handles (exec (two_defaults;; assign_copy_implicit 1%nat 2%nat)
                          init) !! 1%nat
               = handles (exec two_defaults init) !! 1%nat) by (by rewrite Heq).
  vm_compute in Hh. discriminate Hh.
Qed.

(** The runs of C1 and C2 with copies of the same handle type.  The implicit
    copy does not count: the copy's destructor, or [Reset] of the source,
    takes the count from 1 to 0, frees the block and deletes the payload
    under the other handle, whose control pointer now dangles. *)
Lemma same_type_copy_runs :
  (∃ s', (two_handles_same_type;; SharedPtr_dtor 2%nat) init = Ok tt s' ∧
     trace s' = [OnZeroStrongCall 4096; DeletePayload 100;
                 OnZeroWeakCall 4096; DeleteBlock 4096; DeletePayload 100] ∧
     handles s' !! 1%nat = Some (mkSharedPtr 4096 100) ∧
     SharedPtr_dtor 1%nat s' = Fault (DanglingControlBlock 4096)) ∧
  (∃ s0 s', make_shared_same_type init = Ok tt s0 ∧
     SharedPtr_UseCount 1%nat s0 = Ok 1 s0 ∧
     deref 2%nat s0 = Ok 42 s0 ∧
     Reset 1%nat s0 = Ok tt s' ∧
     trace s' = [OnZeroStrongCall 4096; DestroyAt 4112; OnZeroWeakCall 4096;
                 DeleteBlock 4096; DeletePayload 4112] ∧
     SharedPtr_UseCount 2%nat s' = Fault (DanglingControlBlock 4096) ∧
     deref 2%nat s' = Fault (DanglingPayload 4112)).
Proof.
  split.
  - exists (exec (two_handles_same_type;; SharedPtr_dtor 2%nat) init).
    split_and!; vm_compute; reflexivity.
  - exists (exec make_shared_same_type init),
      (exec (make_shared_same_type;; Reset 1%nat) init).
    split_and!; vm_compute; reflexivity.
Qed.

(** C1: a handle built from a raw pointer deletes the payload itself, next to
    the control block.  The sole owner of a payload deletes it twice; with
    two owners (the second a [SharedPtr<const int>] copy of the first),
    destroying one of them deletes the payload while the strong count is
    still one, and destroying both deletes it three times.  Both callbacks
    run once in each case. *)
Theorem payload_deleted_by_handle_and_block :
  (∃ s', (one_owner;; SharedPtr_dtor 0%nat) init = Ok tt s' ∧
     trace s' = [OnZeroStrongCall 4096; DeletePayload 100;
                 OnZeroWeakCall 4096; DeleteBlock 4096; DeletePayload 100] ∧
     deletions 100 (trace s') = 2%nat) ∧
  (∃ s', (two_owners;; SharedPtr_dtor 2%nat) init = Ok tt s' ∧
     SharedPtr_UseCount 1%nat s' = Ok 1 s' ∧
     trace s' = [DeletePayload 100] ∧
     objects s' !! 100 = None) ∧
  (∃ s', (two_owners;; SharedPtr_dtor 2%nat;; SharedPtr_dtor 1%nat) init
           = Ok tt s' ∧
     deletions 100 (trace s') = 3%nat ∧
     fired (OnZeroStrongCall 4096) (trace s') = 1%nat ∧
     fired (OnZeroWeakCall 4096) (trace s') = 1%nat).
Proof.
  split; [|split].
  - exists (exec (one_owner;; SharedPtr_dtor 0%nat) init).
    split_and!; vm_compute; reflexivity.
  - exists (exec (two_owners;; SharedPtr_dtor 2%nat) init).
    split_and!; vm_compute; reflexivity.
  - exists (exec (two_owners;; SharedPtr_dtor 2%nat;; SharedPtr_dtor 1%nat) init).
    split_and!; vm_compute; reflexivity.
Qed.

(** C2: in the scenario of the claim, with [h2] a [SharedPtr<const int>] so
    that the copy is counted, [h1.Reset()] leaves [h1] Empty and
    [h2.UseCount() == 1], but it has applied [delete] to the shared payload:
    [*h2] no longer reads 42.  The same holds when [h2] is assigned from
    [h1] instead of copy-constructed. *)
Theorem reset_deletes_shared_payload :
  (∃ s0 s', make_shared_pair init = Ok tt s0 ∧
     deref 1%nat s0 = Ok 42 s0 ∧ deref 2%nat s0 = Ok 42 s0 ∧
     SharedPtr_UseCount 1%nat s0 = Ok 2 s0 ∧
     Reset 1%nat s0 = Ok tt s' ∧
     handles s' !! 1%nat = Some (mkSharedPtr nullptr nullptr) ∧
     SharedPtr_UseCount 2%nat s' = Ok 1 s' ∧
     trace s' = [DeletePayload 4112] ∧
     Get 2%nat s' = Ok 4112 s' ∧
     deref 2%nat s' = Fault (DanglingPayload 4112)) ∧
  (∃ s0 s', make_shared_assigned init = Ok tt s0 ∧
     deref 2%nat s0 = Ok 42 s0 ∧
     Reset 1%nat s0 = Ok tt s' ∧
     SharedPtr_UseCount 2%nat s' = Ok 1 s' ∧
     deletions 4112 (trace s') = 1%nat ∧
     deref 2%nat s' = Fault (DanglingPayload 4112)).
Proof.
  split.
  - exists (exec make_shared_pair init),
      (exec (make_shared_pair;; Reset 1%nat) init).
    split_and!; vm_compute; reflexivity.
  - exists (exec make_shared_assigned init),
      (exec (make_shared_assigned;; Reset 1%nat) init).
    split_and!; vm_compute; reflexivity.
Qed.

(** C4: move-assignment between two groups leaves the source Empty, yet the
    strong count of the source's group goes from 1 to 2 although one handle
    refers to it; the move constructor leaves the count at 1. *)
Theorem move_assign_increases_strong :
  (∃ s0 s', two_groups init = Ok tt s0 ∧
     SharedPtr_UseCount 2%nat s0 = Ok 1 s0 ∧
     assign_move 1%nat 2%nat s0 = Ok tt s' ∧
     handles s' !! 2%nat = Some (mkSharedPtr nullptr nullptr) ∧
     handles s' !! 1%nat = Some (mkSharedPtr 4128 200) ∧
     blocks s' !! 4128 = Some (mkBlock 2 1 (ControlBlockPtr 200))) ∧
  (∃ s0 s', two_groups init = Ok tt s0 ∧
     SharedPtr_move 3%nat 2%nat s0 = Ok tt s' ∧
     handles s' !! 2%nat = Some (mkSharedPtr nullptr nullptr) ∧
     handles s' !! 3%nat = Some (mkSharedPtr 4128 200) ∧
     blocks s' !! 4128 = Some (mkBlock 1 1 (ControlBlockPtr 200))).
Proof.
  split.
  - exists (exec two_groups init),
      (exec (two_groups;; assign_move 1%nat 2%nat) init).
    split_and!; vm_compute; reflexivity.
  - exists (exec two_groups init),
      (exec (two_groups;; SharedPtr_move 3%nat 2%nat) init).
    split_and!; vm_compute; reflexivity.
Qed.

(** ** Instances of the general statements *)

(** [DecreaseStrong] on the block of a sole owner (count 1) and on the block
    of two owners (count 2). *)
Lemma DecreaseStrong_spec_witness :
  (∃ s', DecreaseStrong 4096 (exec one_owner init) = Ok tt s' ∧
     trace s' = [OnZeroStrongCall 4096; DeletePayload 100;
                 OnZeroWeakCall 4096; DeleteBlock 4096] ∧
     blocks s' !! 4096 = None) ∧
  (∃ s', DecreaseStrong 4096 (exec two_owners init) = Ok tt s' ∧
     trace s' = [] ∧
     blocks s' !! 4096 = Some (mkBlock 1 1 (ControlBlockPtr 100))).
Proof.
  split.
  - destruct (DecreaseStrong_spec (T:=Z) (exec one_owner init) 4096
                (mkBlock 1 1 (ControlBlockPtr 100)))
      as (s' & Hrun & Hpost);
      [done | vm_compute; reflexivity | unfold int_min, int_max; simpl; lia |].
    rewrite decide_True in Hpost by done. destruct Hpost as [Htr Hblk].
    exists s'. split_and!; [exact Hrun | | exact Hblk].
    rewrite Htr. vm_compute. reflexivity.
  - destruct (DecreaseStrong_spec (T:=Z) (exec two_owners init) 4096
                (mkBlock 2 1 (ControlBlockPtr 100)))
      as (s' & Hrun & Hpost);
      [done | vm_compute; reflexivity | unfold int_min, int_max; simpl; lia |].
    rewrite decide_False in Hpost by done. destruct Hpost as [Htr Hblk].
    exists s'. split_and!; [exact Hrun | | exact Hblk].
    rewrite Htr. vm_compute. reflexivity.
Defined.

(** Self-assignment of an Owning handle and of an Empty one. *)
Lemma self_assignment_noop_witness :
  (assign_copy 0%nat 0%nat (exec one_owner init)
     = Ok tt (exec one_owner init) ∧
   assign_copy_implicit 0%nat 0%nat (exec one_owner init)
     = Ok tt (exec one_owner init)) ∧
  (assign_copy 0%nat 0%nat (exec (SharedPtr_null 0%nat) init)
     = Ok tt (exec (SharedPtr_null (T:=Z) 0%nat) init) ∧
   assign_copy_implicit 0%nat 0%nat (exec (SharedPtr_null 0%nat) init)
     = Ok tt (exec (SharedPtr_null (T:=Z) 0%nat) init)).
Proof.
  split.
  - destruct (self_assignment_noop (T:=Z) (exec one_owner init) 0%nat
                (mkSharedPtr 4096 100)) as (Hnoop & _ & _ & Himpl);
      [vm_compute; reflexivity | exact (conj Hnoop Himpl)].
  - destruct (self_assignment_noop (T:=Z) (exec (SharedPtr_null 0%nat) init)
                0%nat (mkSharedPtr nullptr nullptr))
      as (Hnoop & _ & _ & Himpl);
      [vm_compute; reflexivity | exact (conj Hnoop Himpl)].
Defined.

(** Two handles of different groups reporting one address compare equal. *)
Lemma op_eq_compares_payload_witness :
  op_eq 1%nat 2%nat (exec same_address_two_groups init)
    = Ok true (exec same_address_two_groups init).
Proof.
  destruct (op_eq_compares_payload (T:=Z) (exec same_address_two_groups init)
              1%nat 2%nat (mkSharedPtr 4096 100) (mkSharedPtr 4128 100))
    as (r & Hrun & Hiff & _);
    [vm_compute; reflexivity | vm_compute; reflexivity |].
  rewrite Hrun. f_equal. apply Hiff. reflexivity.
Defined.

(** A handle [a] constructed from [nullptr] beside an owner [b]: the
    destructor of [a], [a = b] with [a] a [SharedPtr<const int>] (converting)
    and [a = std::move(b)] fault, while [a = b] with both of one type
    returns.  And a moved-from handle: its destructor and a move assignment
    into it fault. *)
Lemma null_control_block_dereferenced_witness :
  (SharedPtr_dtor 1%nat (exec null_and_owner init) = Fault NullControlBlock ∧
   assign_copy 1%nat 2%nat (exec null_and_owner init)
     = Fault NullControlBlock ∧
   assign_move 1%nat 2%nat (exec null_and_owner init)
     = Fault NullControlBlock ∧
   assign_copy_implicit 1%nat 2%nat (exec null_and_owner init)
     = Ok tt (set_handles (insert 1%nat (mkSharedPtr 4096 200))
                (exec null_and_owner init))) ∧
  (SharedPtr_dtor 1%nat (exec moved_from_owner init) = Fault NullControlBlock ∧
   assign_move 1%nat 2%nat (exec moved_from_owner init)
     = Fault NullControlBlock).
Proof.
  split.
  - destruct (null_control_block_dereferenced (T:=Z)
                (exec null_and_owner init) 1%nat
                (mkSharedPtr nullptr nullptr)) as (Hdtor & Hassign);
      [vm_compute; reflexivity | reflexivity |].
    destruct (Hassign 2%nat (mkSharedPtr 4096 200))
      as (Hcopy & Hmove & Himpl);
      [vm_compute; reflexivity | simpl; discriminate |].
    split_and!; [exact Hdtor | exact Hcopy | exact Hmove | exact Himpl].
  - destruct (null_control_block_dereferenced (T:=Z)
                (exec moved_from_owner init) 1%nat
                (mkSharedPtr nullptr nullptr)) as (Hdtor & Hassign);
      [vm_compute; reflexivity | reflexivity |].
    destruct (Hassign 2%nat (mkSharedPtr 4096 100)) as (_ & Hmove & _);
      [vm_compute; reflexivity | simpl; discriminate |].
    split; [exact Hdtor | exact Hmove].
Defined.

(** Two distinct handles with null payload pointers and different control
    blocks.  With [SharedPtr<const int> a; SharedPtr<int> b;] neither
    [a = b] nor [a = std::move(b)] changes anything; with both of one type
    [a = b] gives [a] the pointers of [b]. *)
Lemma guard_compares_payload_pointers_witness :
  handles (exec two_defaults init) !! 1%nat = Some (mkSharedPtr 4096 nullptr) ∧
  handles (exec two_defaults init) !! 2%nat = Some (mkSharedPtr 4128 nullptr) ∧
  assign_copy 1%nat 2%nat (exec two_defaults init)
    = Ok tt (exec two_defaults init) ∧
  assign_move 1%nat 2%nat (exec two_defaults init)
    = Ok tt (exec two_defaults init) ∧
  assign_copy_implicit 1%nat 2%nat (exec two_defaults init)
    = Ok tt (set_handles (insert 1%nat (mkSharedPtr 4128 nullptr))
               (exec two_defaults init)).
Proof.
  assert (H1 : handles (exec two_defaults init) !! 1%nat
               = Some (mkSharedPtr 4096 nullptr)) by (vm_compute; reflexivity).
  assert (H2 : handles (exec two_defaults init) !! 2%nat
               = Some (mkSharedPtr 4128 nullptr)) by (vm_compute; reflexivity).
  destruct (guard_compares_payload_pointers (T:=Z) (exec two_defaults init)
              1%nat 2%nat _ _ H1 H2) as (Hcopy & Hmove & Himpl);
    [reflexivity|].
  split_and!; [exact H1 | exact H2 | exact Hcopy | exact Hmove | exact Himpl].
Defined.

End SharedSpec.

(** * Properties of unique.h *)

Module UniqueSpec.
Import Unique.

Section Facts.
Context {Deleter : Type}.
Implicit Types (u : UniquePtr (Deleter:=Deleter)) (w : calls (Deleter:=Deleter)).

Lemma destroyed_invoke_null (d : Deleter) w :
  destroyed (invoke d nullptr w) = destroyed w.
Proof.
  unfold destroyed, invoke. rewrite fmap_app, filter_app. simpl.
  rewrite filter_cons_False by (intros Hne; by apply Hne).
  rewrite filter_nil. apply app_nil_r.
Qed.

(** C8: [Release] returns the held pointer and leaves the handle with a null
    pointer, without any call of the deleter.  The destructor of the released
    handle then calls the deleter once, on the null pointer: no object is
    handed to it. *)
Theorem Release_relinquishes u w :
  ∃ u', Release u w = (ptr_ u, u', w) ∧
    Get u' = nullptr ∧ to_bool u' = false ∧ GetDeleter u' = GetDeleter u ∧
    UniquePtr_dtor u' w = w ++ [(del_ u, nullptr)] ∧
    destroyed (UniquePtr_dtor u' w) = destroyed w.
Proof.
  exists (mkUniquePtr nullptr (del_ u)).
  split_and!; try reflexivity.
  unfold UniquePtr_dtor. simpl. apply destroyed_invoke_null.
Qed.

End Facts.
End UniqueSpec.

(** * Further properties of shared.h *)

Module SharedExtra.
Import Shared SharedSpec.

Ltac unfold_setters :=
  unfold set_blocks, set_objects, set_handles, set_brk, set_trace in *;
  simpl in *.

Section Facts.
Context {T : Type}.
Implicit Types (s : State (T:=T)) (v : SharedPtr) (b : ControlBlockBase).

Lemma with_strong_same b : with_strong (strong b) b = b.
Proof. by destruct b. Qed.

Lemma with_strong_twice n m b : with_strong n (with_strong m b) = with_strong n b.
Proof. reflexivity. Qed.

(** *** The two paths of DecreaseStrong, with the state they leave *)

Lemma DecreaseStrong_last s c b :
  c ≠ nullptr → blocks s !! c = Some b → strong b = 1 →
  DecreaseStrong c s = Ok tt (released c b s).
Proof.
  intros Hc Hb Hone. unfold DecreaseStrong. unfold_monad.
  rewrite (load_block_run s c b) by done. rewrite Hone. simpl.
  unfold store_block, OnZeroStrong, OnZeroWeak. unfold_monad.
  set (s1 := set_blocks _ s).
  assert (Hs1 : blocks s1 !! c = Some (with_strong 0 b))
    by (subst s1; simpl; apply lookup_insert_eq).
  rewrite (load_block_run s1 c _ Hc Hs1). simpl.
  unfold released, release_objects, release_events.
  destruct (variant b) as [p|]; simpl.
  - unfold delete_T. case_decide; unfold_monad; simpl;
      rewrite (load_block_run _ c _ Hc) by (simpl; exact Hs1);
      subst s1; unfold_setters; rewrite delete_insert_eq, <- !app_assoc;
      reflexivity.
  - unfold destroy_at. unfold_monad. simpl.
    rewrite (load_block_run _ c _ Hc) by (simpl; exact Hs1).
    subst s1. unfold_setters. rewrite delete_insert_eq, <- !app_assoc.
    reflexivity.
Qed.

Lemma DecreaseStrong_other s c b :
  c ≠ nullptr → blocks s !! c = Some b →
  int_min < strong b <= int_max → strong b ≠ 1 →
  DecreaseStrong c s
    = Ok tt (set_blocks (insert c (with_strong (strong b - 1) b)) s).
Proof.
  intros Hc Hb Hrange Hne. unfold DecreaseStrong. unfold_monad.
  rewrite (load_block_run s c b) by done.
  rewrite wrap_int_id by (unfold int_min, int_max in *; lia).
  unfold store_block. unfold_monad.
  rewrite decide_False by lia. reflexivity.
Qed.

Lemma IncreaseStrong_run s c b :
  c ≠ nullptr → blocks s !! c = Some b →
  int_min <= strong b < int_max →
  IncreaseStrong c s
    = Ok tt (set_blocks (insert c (with_strong (strong b + 1) b)) s).
Proof.
  intros Hc Hb Hrange. unfold IncreaseStrong. unfold_monad.
  rewrite (load_block_run s c b) by done.
  rewrite wrap_int_id by (unfold int_min, int_max in *; lia).
  reflexivity.
Qed.

(** X1: on a live block whose counter is not zero, [IncreaseStrong] followed
    by [DecreaseStrong] gives back the state it started from: no callback
    runs and the counter returns to its value. *)
Theorem increase_then_decrease s c b :
  c ≠ nullptr → blocks s !! c = Some b →
  int_min <= strong b < int_max → strong b ≠ 0 →
  (IncreaseStrong c;; DecreaseStrong c) s = Ok tt s.
Proof.
  intros Hc Hb Hrange Hnz. unfold_monad.
  rewrite (IncreaseStrong_run s c b) by done.
  rewrite (DecreaseStrong_other _ c (with_strong (strong b + 1) b));
    [| done | simpl; apply lookup_insert_eq
     | simpl; unfold int_min, int_max in *; lia | simpl; lia].
  f_equal. destruct s as [bl ob hs br tr]. unfold set_blocks. simpl in *.
  f_equal. rewrite insert_insert_eq.
  replace (strong b + 1 - 1) with (strong b) by lia.
  rewrite with_strong_twice, with_strong_same. by apply insert_id.
Qed.

(** *** Members of a handle *)

(** The statement [if (ptr_) delete ptr_;] of the destructor and of both
    [Reset]. *)
Lemma handle_delete_run s p :
  (if decide (p ≠ nullptr) then delete_T p else mret tt) s
  = Ok tt (mkState (blocks s) (handle_delete_objects p (objects s))
             (handles s) (brk s) (trace s ++ handle_delete_events p)).
Proof.
  unfold handle_delete_objects, handle_delete_events, delete_T.
  destruct (decide (p = nullptr)) as [->|Hp].
  - rewrite decide_False by (intros Hn; by apply Hn).
    unfold_monad. rewrite app_nil_r. by destruct s.
  - rewrite decide_True by done. unfold_monad. reflexivity.
Qed.

(** *** Converting copy construction *)

Lemma SharedPtr_copy_run s this other v b :
  handles s !! other = Some v → cb_ v ≠ nullptr →
  blocks s !! cb_ v = Some b → int_min <= strong b < int_max →
  SharedPtr_copy this other s
  = Ok tt (set_handles (insert this v)
             (set_blocks (insert (cb_ v) (with_strong (strong b + 1) b)) s)).
Proof.
  intros Hh Hc Hb Hrange. unfold SharedPtr_copy. unfold_monad.
  rewrite (get_cb_run s other v) by done.
  rewrite (IncreaseStrong_run s (cb_ v) b) by done.
  rewrite (get_ptr_run _ other v) by done.
  by destruct v.
Qed.

(** X2: [k] converting copy constructions (the member template, source of
    another handle type) from a handle of a live group raise the strong
    count by [k]: the source then reports [UseCount() == strong + k]; every
    copy is the same pair of pointers, the handles below [dst] are untouched
    and nothing is destroyed. *)
Theorem clone_n_use_count k : ∀ s (src dst : nat) v b,
  handles s !! src = Some v → cb_ v ≠ nullptr →
  blocks s !! cb_ v = Some b →
  int_min <= strong b → strong b + Z.of_nat k <= int_max →
  (src < dst)%nat →
  ∃ s', clone_n src dst k s = Ok tt s' ∧
    blocks s' !! cb_ v = Some (with_strong (strong b + Z.of_nat k) b) ∧
    SharedPtr_UseCount src s'
      = Ok (to_size_t (strong b + Z.of_nat k)) s' ∧
    (∀ i, (i < dst)%nat → handles s' !! i = handles s !! i) ∧
    (∀ i, (dst <= i < dst + k)%nat → handles s' !! i = Some v) ∧
    trace s' = trace s.
Proof.
  induction k as [|k IH]; intros s src dst v b Hh Hc Hb Hlo Hhi Hlt.
  - replace (strong b + Z.of_nat 0) with (strong b) by lia.
    rewrite with_strong_same.
    exists s. split; [reflexivity|]. split; [done|]. split.
    + unfold SharedPtr_UseCount, UseCount. unfold_monad.
      rewrite (get_cb_run s src v) by done.
      by rewrite (load_block_run s (cb_ v) b).
    + split; [done|]. split; [lia | done].
  - simpl. unfold_monad.
    rewrite (SharedPtr_copy_run s dst src v b)
      by (try done; unfold int_max in *; lia).
    set (s1 := set_handles _ _).
    destruct (IH s1 src (S dst) v (with_strong (strong b + 1) b))
      as (s' & Hrun & Hblk & Huse & Hlow & Hnew & Htr).
    + subst s1. simpl. rewrite lookup_insert_ne by lia. done.
    + done.
    + subst s1. simpl. apply lookup_insert_eq.
    + simpl. lia.
    + simpl. lia.
    + lia.
    + simpl in Hblk, Huse.
      replace (strong b + 1 + Z.of_nat k) with (strong b + Z.of_nat (S k))
        in Hblk, Huse by lia.
      exists s'. split; [exact Hrun|]. split; [exact Hblk|].
      split; [exact Huse|]. split; [|split].
      * intros i Hi. rewrite Hlow by lia. subst s1. simpl.
        apply lookup_insert_ne. lia.
      * intros i Hi. destruct (decide (i = dst)) as [->|Hne].
        -- rewrite Hlow by lia. subst s1. simpl. apply lookup_insert_eq.
        -- apply Hnew. lia.
      * rewrite Htr. reflexivity.
Qed.

Lemma SharedPtr_copy_implicit_run s (this other : nat) v :
  handles s !! other = Some v →
  SharedPtr_copy_implicit this other s
  = Ok tt (set_handles (insert this v) s).
Proof.
  intros Hh. unfold SharedPtr_copy_implicit. unfold_monad.
  rewrite (get_cb_run s other v), (get_ptr_run s other v) by done.
  by destruct v.
Qed.

(** X3: the converting copy constructor and the aliasing constructor call
    [IncreaseStrong] through the control pointer they take from the source:
    with a source whose [cb_] is null both fault there.  The implicit copy
    constructor, used for a source of the same type, calls nothing and
    returns with a copy of the two null-controlled pointers. *)
Theorem copy_from_null_control s (this other : nat) v p :
  handles s !! other = Some v → cb_ v = nullptr →
  SharedPtr_copy this other s = Fault NullControlBlock ∧
  SharedPtr_alias this other p s = Fault NullControlBlock ∧
  SharedPtr_copy_implicit this other s
    = Ok tt (set_handles (insert this v) s).
Proof.
  intros Hh Hnull. split_and!.
  - unfold SharedPtr_copy. unfold_monad.
    rewrite (get_cb_run s other v) by done. by rewrite Hnull.
  - unfold SharedPtr_alias. unfold_monad.
    rewrite (get_cb_run s other v) by done. by rewrite Hnull.
  - by apply SharedPtr_copy_implicit_run.
Qed.

(** *** Copies between handles of one type *)

(** X20: [k] copy constructions from a source of the same handle type run
    the implicit member-wise copy constructor, also when the source has a
    null control pointer: every copy holds the two pointers of the source,
    and no control block, payload or trace changes.  [UseCount()] on the
    source gives what it gave before, although [k] more handles refer to
    the group. *)
Theorem clone_implicit_n_keeps_count k : ∀ s (src dst : nat) v,
  handles s !! src = Some v → (src < dst)%nat →
  ∃ s', clone_implicit_n src dst k s = Ok tt s' ∧
    blocks s' = blocks s ∧ objects s' = objects s ∧ trace s' = trace s ∧
    (∀ i, (i < dst)%nat → handles s' !! i = handles s !! i) ∧
    (∀ i, (dst <= i < dst + k)%nat → handles s' !! i = Some v) ∧
    (∀ n, SharedPtr_UseCount src s = Ok n s →
          SharedPtr_UseCount src s' = Ok n s').
Proof.
  induction k as [|k IH]; intros s src dst v Hh Hlt.
  - exists s. split_and!; try done. intros i Hi. lia.
  - simpl. unfold mbind, M_bind.
    rewrite (SharedPtr_copy_implicit_run s dst src v Hh).
    set (s1 := set_handles _ s).
    assert (H1 : handles s1 !! src = Some v)
      by (subst s1; simpl; rewrite lookup_insert_ne by lia; done).
    destruct (IH s1 src (S dst) v H1 ltac:(lia))
      as (s' & Hrun & Hbl & Hob & Htr & Hlow & Hnew & Huse).
    exists s'. split_and!; try done.
    + intros i Hi. rewrite Hlow by lia. subst s1. simpl.
      apply lookup_insert_ne. lia.
    + intros i Hi. destruct (decide (i = dst)) as [->|Hne].
      * rewrite Hlow by lia. subst s1. simpl. apply lookup_insert_eq.
      * apply Hnew. lia.
    + intros n Hn. apply Huse.
      unfold SharedPtr_UseCount, UseCount, load_block in *. unfold_monad.
      rewrite (get_cb_run s1 src v H1).
      rewrite (get_cb_run s src v Hh) in Hn.
      subst s1. simpl.
      destruct (decide (cb_ v = nullptr)); [done|].
      destruct (blocks s !! cb_ v); [|done].
      by inversion Hn.
Qed.

(** X21: copy assignment between two handles of one type is the implicit
    member-wise operator: the target becomes a copy of the source and
    nothing else changes.  The count of the target's old group is not
    lowered and the count of the source's group is not raised; no callback
    runs and nothing is destroyed. *)
Theorem same_type_assignment_memberwise s (this other : nat) vt vo :
  handles s !! this = Some vt → handles s !! other = Some vo →
  ∃ s', assign_copy_implicit this other s = Ok tt s' ∧
    handles s' !! this = Some vo ∧
    (∀ i, i ≠ this → handles s' !! i = handles s !! i) ∧
    blocks s' = blocks s ∧ objects s' = objects s ∧ trace s' = trace s ∧
    (∀ n, SharedPtr_UseCount other s = Ok n s →
          SharedPtr_UseCount this s' = Ok n s').
Proof.
  intros Ht Ho.
  rewrite (assign_copy_implicit_run s this other vt vo) by done.
  set (s' := set_handles _ s).
  assert (Ht' : handles s' !! this = Some vo)
    by (subst s'; simpl; apply lookup_insert_eq).
  exists s'. split_and!; try done.
  - intros i Hi. subst s'. simpl. by rewrite lookup_insert_ne.
  - intros n Hn.
    unfold SharedPtr_UseCount, UseCount, load_block in *. unfold_monad.
    rewrite (get_cb_run s' this vo Ht').
    rewrite (get_cb_run s other vo Ho) in Hn.
    subst s'. simpl.
    destruct (decide (cb_ vo = nullptr)); [done|].
    destruct (blocks s !! cb_ vo); [|done].
    by inversion Hn.
Qed.

(** X4: the move constructor never faults: the new handle receives both
    pointers of the source, the source becomes Empty, and no control block,
    payload or other handle is touched. *)
Theorem SharedPtr_move_transfers s (this other : nat) v :
  handles s !! other = Some v → this ≠ other →
  ∃ s', SharedPtr_move this other s = Ok tt s' ∧
    handles s' !! this = Some v ∧
    handles s' !! other = Some (mkSharedPtr nullptr nullptr) ∧
    (∀ i, i ≠ this → i ≠ other → handles s' !! i = handles s !! i) ∧
    blocks s' = blocks s ∧ objects s' = objects s ∧ trace s' = trace s.
Proof.
  intros Hh Hne. unfold SharedPtr_move. unfold_monad.
  rewrite (get_cb_run s other v) by done.
  rewrite (set_cb_run s other nullptr v) by done.
  set (s1 := set_handles _ s).
  assert (H1 : handles s1 !! other = Some (mkSharedPtr nullptr (ptr_ v)))
    by (subst s1; simpl; apply lookup_insert_eq).
  rewrite (get_ptr_run s1 other _ H1).
  rewrite (set_ptr_run s1 other nullptr _ H1). simpl.
  eexists. split; [reflexivity|]. subst s1. unfold_setters.
  split; [destruct v; apply lookup_insert_eq|].
  split; [rewrite lookup_insert_ne by done; apply lookup_insert_eq|].
  split; [|done].
  intros i Hi1 Hi2. by rewrite !lookup_insert_ne.
Qed.

(** *** Destructor *)

(** X5: destroying a handle that is not the last owner of its group lowers
    the strong count by one and runs no callback; the handle still applies
    [delete] to its own payload pointer when that is not null. *)
Theorem dtor_not_last_owner s h v b :
  handles s !! h = Some v → cb_ v ≠ nullptr →
  blocks s !! cb_ v = Some b →
  int_min < strong b <= int_max → strong b ≠ 1 →
  ∃ s', SharedPtr_dtor h s = Ok tt s' ∧
    blocks s' = <[cb_ v:=with_strong (strong b - 1) b]> (blocks s) ∧
    handles s' = delete h (handles s) ∧
    objects s' = handle_delete_objects (ptr_ v) (objects s) ∧
    trace s' = trace s ++ handle_delete_events (ptr_ v).
Proof.
  intros Hh Hc Hb Hrange Hne. unfold SharedPtr_dtor. unfold mbind, M_bind.
  rewrite (get_cb_run s h v) by done.
  rewrite (DecreaseStrong_other s (cb_ v) b) by done.
  rewrite (get_ptr_run _ h v) by done.
  rewrite handle_delete_run. unfold modify.
  eexists. split; [reflexivity|]. by unfold_setters.
Qed.

(** X6: destroying the last owner runs [OnZeroStrong], the release of the
    payload, [OnZeroWeak] and [delete this] once each, in this order, and
    then the handle's own [delete] of its payload pointer when that is not
    null; the block and the handle are gone afterwards. *)
Theorem dtor_last_owner s h v b :
  handles s !! h = Some v → cb_ v ≠ nullptr →
  blocks s !! cb_ v = Some b → strong b = 1 →
  ∃ s', SharedPtr_dtor h s = Ok tt s' ∧
    blocks s' = delete (cb_ v) (blocks s) ∧
    handles s' = delete h (handles s) ∧
    objects s' = handle_delete_objects (ptr_ v)
                   (release_objects (cb_ v) (variant b) (objects s)) ∧
    trace s' = (trace s ++ [OnZeroStrongCall (cb_ v)]
                  ++ release_events (cb_ v) (variant b)
                  ++ [OnZeroWeakCall (cb_ v); DeleteBlock (cb_ v)])
               ++ handle_delete_events (ptr_ v).
Proof.
  intros Hh Hc Hb Hone. unfold SharedPtr_dtor. unfold mbind, M_bind.
  rewrite (get_cb_run s h v) by done.
  rewrite (DecreaseStrong_last s (cb_ v) b) by done.
  rewrite (get_ptr_run _ h v) by done.
  rewrite handle_delete_run. unfold modify.
  eexists. split; [reflexivity|]. by unfold_setters.
Qed.

(** *** Observers *)

(** X11: on an Empty handle [Get] returns null and the boolean test is
    false, while [UseCount] goes through the null control pointer and
    [operator*] through the null payload pointer: both fault. *)
Theorem observers_on_empty s h v :
  handles s !! h = Some v → Empty v →
  Get h s = Ok nullptr s ∧ to_bool h s = Ok false s ∧
  SharedPtr_UseCount h s = Fault NullControlBlock ∧
  deref h s = Fault NullPayload.
Proof.
  intros Hh [Hcb Hptr].
  unfold Get, to_bool, SharedPtr_UseCount, deref, Get. unfold_monad.
  rewrite (get_ptr_run s h v), (get_cb_run s h v) by done.
  rewrite Hcb, Hptr. by split_and!.
Qed.

(** *** MakeShared *)

(** X10: [MakeShared] makes one allocation; the handle it returns reports the
    address of the holder inside that block, which is not null, reads back
    the value it was given, and is the only owner. *)
Theorem MakeShared_round_trip s h (x : T) :
  ∃ s', MakeShared h x s = Ok tt s' ∧
    Get h s' = Ok (holder_of (Z.pos (brk s))) s' ∧
    holder_of (Z.pos (brk s)) ≠ nullptr ∧
    deref h s' = Ok x s' ∧
    SharedPtr_UseCount h s' = Ok 1 s' ∧
    to_bool h s' = Ok true s' ∧
    brk s' = (brk s + block_stride)%positive ∧
    trace s' = trace s.
Proof.
  assert (Hnn : holder_of (Z.pos (brk s)) ≠ nullptr)
    by (unfold holder_of, holder_offset, nullptr; lia).
  eexists. split; [reflexivity|].
  set (s' := set_handles _ _).
  assert (Hh : handles s' !! h
               = Some (mkSharedPtr (Z.pos (brk s)) (holder_of (Z.pos (brk s)))))
    by (subst s'; simpl; apply lookup_insert_eq).
  assert (Hb : blocks s' !! Z.pos (brk s)
               = Some (mkBlock 1 1 ControlBlockMakeShared))
    by (subst s'; simpl; apply lookup_insert_eq).
  assert (Ho : objects s' !! holder_of (Z.pos (brk s)) = Some x)
    by (subst s'; simpl; apply lookup_insert_eq).
  split_and!; try done.
  - by apply (get_ptr_run s' h _ Hh).
  - unfold deref, Get. unfold_monad. rewrite (get_ptr_run s' h _ Hh).
    cbn [ptr_]. rewrite decide_False by done. by rewrite Ho.
  - unfold SharedPtr_UseCount, UseCount. unfold_monad.
    rewrite (get_cb_run s' h _ Hh). cbn [cb_].
    by rewrite (load_block_run s' (Z.pos (brk s)) _ ltac:(done) Hb).
  - unfold to_bool. unfold_monad. rewrite (get_ptr_run s' h _ Hh).
    cbn [ptr_]. by rewrite bool_decide_true.
Qed.

(** *** Reset *)






(** *** Swap *)

(** X9: [Swap] exchanges the two handles and touches nothing else; swapping
    twice restores the state. *)
Theorem Swap_twice s (x y : nat) vx vy :
  handles s !! x = Some vx → handles s !! y = Some vy →
  ∃ s', Swap x y s = Ok tt s' ∧
    handles s' !! x = Some vy ∧ handles s' !! y = Some vx ∧
    (∀ i, i ≠ x → i ≠ y → handles s' !! i = handles s !! i) ∧
    blocks s' = blocks s ∧ objects s' = objects s ∧ trace s' = trace s ∧
    Swap x y s' = Ok tt s.
Proof.
  intros Hx Hy.
  assert (Hrun : Swap x y s
            = Ok tt (set_handles (insert y vx) (set_handles (insert x vy) s))).
  { unfold Swap. unfold_monad.
    by rewrite (load_handle_run s x vx), (load_handle_run s y vy). }
  set (s' := set_handles _ _) in Hrun.
  assert (Hx' : handles s' !! x = Some vy).
  { subst s'. unfold_setters. destruct (decide (x = y)) as [->|Hne].
    - rewrite lookup_insert_eq. congruence.
    - rewrite lookup_insert_ne by done. apply lookup_insert_eq. }
  assert (Hy' : handles s' !! y = Some vx)
    by (subst s'; unfold_setters; apply lookup_insert_eq).
  exists s'. split_and!; try done.
  - intros i Hi1 Hi2. subst s'. unfold_setters. by rewrite !lookup_insert_ne.
  - unfold Swap. unfold_monad.
    rewrite (load_handle_run s' x vy), (load_handle_run s' y vx) by done.
    f_equal. subst s'. destruct s as [bl ob hs br tr]. unfold_setters.
    f_equal. apply map_eq. intros i.
    destruct (decide (i = y)) as [->|Hiy].
    + by rewrite lookup_insert_eq.
    + rewrite lookup_insert_ne by done.
      destruct (decide (i = x)) as [->|Hix].
      * by rewrite lookup_insert_eq.
      * by rewrite !lookup_insert_ne.
Qed.

(** *** Copy assignment between two groups *)

(** The statements of [operator=] after the decrement: adopt the control
    pointer of [other], increase its count, adopt its payload pointer. *)
Lemma join_group_run s (this other : nat) vt vo bo :
  handles s !! this = Some vt → handles s !! other = Some vo →
  this ≠ other → cb_ vo ≠ nullptr → blocks s !! cb_ vo = Some bo →
  int_min <= strong bo < int_max →
  (oc ← get_cb other; set_cb this oc;; IncreaseStrong oc;;
   op ← get_ptr other; set_ptr this op) s
  = Ok tt (mkState (<[cb_ vo:=with_strong (strong bo + 1) bo]> (blocks s))
             (objects s) (<[this:=vo]> (handles s)) (brk s) (trace s)).
Proof.
  intros Ht Ho Hne Hc Hb Hrange. unfold mbind, M_bind.
  rewrite (get_cb_run s other vo Ho).
  rewrite (set_cb_run s this (cb_ vo) vt Ht).
  set (s1 := set_handles _ s).
  rewrite (IncreaseStrong_run s1 (cb_ vo) bo) by done.
  set (s2 := set_blocks _ s1).
  rewrite (get_ptr_run s2 other vo)
    by (subst s2 s1; simpl; by rewrite lookup_insert_ne).
  rewrite (set_ptr_run s2 this (ptr_ vo) (mkSharedPtr (cb_ vo) (ptr_ vt)))
    by (subst s2 s1; simpl; apply lookup_insert_eq).
  subst s2 s1. unfold_setters. rewrite insert_insert_eq. by destruct vo.
Qed.

Lemma assign_copy_unfold s (this other : nat) vt vo :
  handles s !! this = Some vt → handles s !! other = Some vo →
  ptr_ vo ≠ ptr_ vt →
  assign_copy this other s
  = (DecreaseStrong (cb_ vt);;
     oc ← get_cb other; set_cb this oc;; IncreaseStrong oc;;
     op ← get_ptr other; set_ptr this op) s.
Proof.
  intros Ht Ho Hne. unfold assign_copy.
  unfold mbind at 1. unfold M_bind at 1.
  rewrite (op_eq_run s other this vo vt) by done.
  rewrite bool_decide_false by done.
  unfold mbind at 1. unfold M_bind at 1.
  by rewrite (get_cb_run s this vt Ht).
Qed.

(** X12: converting copy assignment (the member template, source of another
    handle type) from a handle of another live group leaves the old group
    and joins the new one: the new group's count rises by one and the
    handle takes both pointers of the source.  When the handle was the last
    owner of its old group the callbacks run once and the block is freed;
    otherwise the old count drops by one.  The assignment itself applies no
    [delete] to the handle's old payload pointer. *)
Theorem assign_copy_between_groups s (this other : nat) vt vo bt bo :
  handles s !! this = Some vt → handles s !! other = Some vo →
  ptr_ vo ≠ ptr_ vt →
  cb_ vt ≠ nullptr → cb_ vo ≠ nullptr → cb_ vt ≠ cb_ vo →
  blocks s !! cb_ vt = Some bt → blocks s !! cb_ vo = Some bo →
  int_min < strong bt <= int_max → int_min <= strong bo < int_max →
  ∃ s', assign_copy this other s = Ok tt s' ∧
    handles s' = <[this:=vo]> (handles s) ∧
    blocks s' !! cb_ vo = Some (with_strong (strong bo + 1) bo) ∧
    if decide (strong bt = 1)
    then blocks s' !! cb_ vt = None ∧
         objects s' = release_objects (cb_ vt) (variant bt) (objects s) ∧
         trace s' = trace s ++ [OnZeroStrongCall (cb_ vt)]
                      ++ release_events (cb_ vt) (variant bt)
                      ++ [OnZeroWeakCall (cb_ vt); DeleteBlock (cb_ vt)]
    else blocks s' !! cb_ vt = Some (with_strong (strong bt - 1) bt) ∧
         objects s' = objects s ∧ trace s' = trace s.
Proof.
  intros Ht Ho Hptr Hct Hco Hcne Hbt Hbo Hrt Hro.
  assert (Hne : this ≠ other) by (intros ->; congruence).
  rewrite (assign_copy_unfold s this other vt vo) by done.
  unfold mbind at 1. unfold M_bind at 1.
  case_decide as Hone.
  - rewrite (DecreaseStrong_last s (cb_ vt) bt) by done.
    rewrite (join_group_run (released (cb_ vt) bt s) this other vt vo bo);
      [| done | done | done | done
       | simpl; by rewrite lookup_delete_ne | done ].
    eexists. split; [reflexivity|]. simpl.
    split; [done|]. split; [apply lookup_insert_eq|].
    split; [|done].
    rewrite lookup_insert_ne by done. apply lookup_delete_eq.
  - rewrite (DecreaseStrong_other s (cb_ vt) bt) by done.
    rewrite (join_group_run _ this other vt vo bo);
      [| done | done | done | done
       | simpl; by rewrite lookup_insert_ne | done ].
    eexists. split; [reflexivity|]. simpl.
    split; [done|]. split; [apply lookup_insert_eq|].
    split; [|done].
    rewrite lookup_insert_ne by done. apply lookup_insert_eq.
Qed.

(** *** Aliasing constructor *)

(** X13: the aliasing constructor joins the group of its source, whose count
    rises by one, and reports the pointer it was given: the two handles
    agree on [UseCount()] while [Get()] of the new one is that pointer. *)
Theorem SharedPtr_alias_shares s (this other : nat) v b p :
  handles s !! other = Some v → this ≠ other → cb_ v ≠ nullptr →
  blocks s !! cb_ v = Some b → int_min <= strong b < int_max →
  ∃ s', SharedPtr_alias this other p s = Ok tt s' ∧
    handles s' !! this = Some (mkSharedPtr (cb_ v) p) ∧
    handles s' !! other = Some v ∧
    Get this s' = Ok p s' ∧
    SharedPtr_UseCount this s' = Ok (to_size_t (strong b + 1)) s' ∧
    SharedPtr_UseCount other s' = Ok (to_size_t (strong b + 1)) s' ∧
    objects s' = objects s ∧ trace s' = trace s.
Proof.
  intros Hh Hne Hc Hb Hrange.
  assert (Hrun : SharedPtr_alias this other p s
    = Ok tt (set_handles (insert this (mkSharedPtr (cb_ v) p))
        (set_blocks (insert (cb_ v) (with_strong (strong b + 1) b)) s))).
  { unfold SharedPtr_alias. unfold_monad.
    rewrite (get_cb_run s other v) by done.
    by rewrite (IncreaseStrong_run s (cb_ v) b) by done. }
  set (s' := set_handles _ _) in Hrun.
  assert (Ht' : handles s' !! this = Some (mkSharedPtr (cb_ v) p))
    by (subst s'; simpl; apply lookup_insert_eq).
  assert (Ho' : handles s' !! other = Some v)
    by (subst s'; simpl; by rewrite lookup_insert_ne).
  assert (Hb' : blocks s' !! cb_ v = Some (with_strong (strong b + 1) b))
    by (subst s'; simpl; apply lookup_insert_eq).
  exists s'. split_and!; try done.
  - by apply (get_ptr_run s' this _ Ht').
  - unfold SharedPtr_UseCount, UseCount. unfold_monad.
    rewrite (get_cb_run s' this _ Ht'). cbn [cb_].
    by rewrite (load_block_run s' (cb_ v) _ Hc Hb').
  - unfold SharedPtr_UseCount, UseCount. unfold_monad.
    rewrite (get_cb_run s' other _ Ho').
    by rewrite (load_block_run s' (cb_ v) _ Hc Hb').
Qed.

End Facts.

(** ** Instances on the programs of [Shared] *)

Lemma increase_then_decrease_witness :
  (IncreaseStrong 4096;; DecreaseStrong 4096) (exec one_owner init)
  = Ok tt (exec one_owner init).
Proof.
  apply (increase_then_decrease (T:=Z) (exec one_owner init) 4096
           (mkBlock 1 1 (ControlBlockPtr 100)));
    [done | vm_compute; reflexivity
     | unfold int_min, int_max; simpl; lia | simpl; lia].
Defined.

(** [SharedPtr<int> h(new int(7))] and three copies
    [SharedPtr<const int> c(h)]: [UseCount() == 4]. *)
Lemma clone_n_use_count_witness :
  ∃ s', clone_n 0%nat 1%nat 3 (exec one_owner init) = Ok tt s' ∧
    SharedPtr_UseCount 0%nat s' = Ok 4 s' ∧
    handles s' !! 3%nat = Some (mkSharedPtr 4096 100).
Proof.
  destruct (clone_n_use_count (T:=Z) 3 (exec one_owner init) 0%nat 1%nat
              (mkSharedPtr 4096 100) (mkBlock 1 1 (ControlBlockPtr 100)))
    as (s' & Hrun & _ & Huse & _ & Hnew & _);
    [vm_compute; reflexivity | done | vm_compute; reflexivity
     | unfold int_min; simpl; lia | unfold int_max; simpl; lia | lia |].
  exists s'. split_and!; [exact Hrun | exact Huse | apply Hnew; lia].
Defined.

(** From [SharedPtr<int> a(nullptr)]: [SharedPtr<const int> c(a)] and
    [SharedPtr<int> c(a, p)] fault, [SharedPtr<int> c(a)] does not. *)
Lemma copy_from_null_control_witness :
  SharedPtr_copy 3%nat 1%nat (exec null_and_owner init)
    = Fault NullControlBlock ∧
  SharedPtr_alias 3%nat 1%nat 200 (exec null_and_owner init)
    = Fault NullControlBlock ∧
  SharedPtr_copy_implicit 3%nat 1%nat (exec null_and_owner init)
    = Ok tt (set_handles (insert 3%nat (mkSharedPtr nullptr nullptr))
               (exec null_and_owner init)).
Proof.
  apply (copy_from_null_control (T:=Z) (exec null_and_owner init) 3%nat 1%nat
           (mkSharedPtr nullptr nullptr) 200);
    [vm_compute; reflexivity | reflexivity].
Defined.

Lemma SharedPtr_move_transfers_witness :
  ∃ s', SharedPtr_move 1%nat 0%nat (exec one_owner init) = Ok tt s' ∧
    handles s' !! 1%nat = Some (mkSharedPtr 4096 100) ∧
    handles s' !! 0%nat = Some (mkSharedPtr nullptr nullptr) ∧
    blocks s' = blocks (exec one_owner init).
Proof.
  destruct (SharedPtr_move_transfers (T:=Z) (exec one_owner init) 1%nat 0%nat
              (mkSharedPtr 4096 100))
    as (s' & Hrun & Hthis & Hother & _ & Hblocks & _);
    [vm_compute; reflexivity | done |].
  exists s'. split_and!; [exact Hrun | exact Hthis | exact Hother | exact Hblocks].
Defined.

(** Two owners of one raw pointer; the copy is destroyed first. *)
Lemma dtor_not_last_owner_witness :
  ∃ s', SharedPtr_dtor 2%nat (exec two_owners init) = Ok tt s' ∧
    blocks s' !! 4096 = Some (mkBlock 1 1 (ControlBlockPtr 100)) ∧
    objects s' !! 100 = None ∧
    trace s' = [DeletePayload 100].
Proof.
  destruct (dtor_not_last_owner (T:=Z) (exec two_owners init) 2%nat
              (mkSharedPtr 4096 100) (mkBlock 2 1 (ControlBlockPtr 100)))
    as (s' & Hrun & Hblocks & _ & Hobjs & Htr);
    [vm_compute; reflexivity | done | vm_compute; reflexivity
     | unfold int_min, int_max; simpl; lia | simpl; lia |].
  exists s'. split; [exact Hrun|].
  rewrite Hblocks, Hobjs, Htr. split_and!; vm_compute; reflexivity.
Defined.

(** The only owner of a [MakeShared] block. *)
Lemma dtor_last_owner_witness :
  ∃ s', SharedPtr_dtor 1%nat (exec make_shared_owner init) = Ok tt s' ∧
    blocks s' !! 4096 = None ∧
    trace s' = [OnZeroStrongCall 4096; DestroyAt 4112; OnZeroWeakCall 4096;
                DeleteBlock 4096; DeletePayload 4112].
Proof.
  destruct (dtor_last_owner (T:=Z) (exec make_shared_owner init) 1%nat
              (mkSharedPtr 4096 4112) (mkBlock 1 1 ControlBlockMakeShared))
    as (s' & Hrun & Hblocks & _ & _ & Htr);
    [vm_compute; reflexivity | done | vm_compute; reflexivity | reflexivity |].
  exists s'. split; [exact Hrun|].
  rewrite Hblocks, Htr. split; vm_compute; reflexivity.
Defined.

Lemma observers_on_empty_witness :
  Get 1%nat (exec null_and_owner init)
    = Ok nullptr (exec null_and_owner init) ∧
  to_bool 1%nat (exec null_and_owner init)
    = Ok false (exec null_and_owner init) ∧
  SharedPtr_UseCount 1%nat (exec null_and_owner init)
    = Fault NullControlBlock ∧
  deref 1%nat (exec null_and_owner init) = Fault NullPayload.
Proof.
  apply (observers_on_empty (T:=Z) (exec null_and_owner init) 1%nat
           (mkSharedPtr nullptr nullptr));
    [vm_compute; reflexivity | by split].
Defined.



Lemma Swap_twice_witness :
  ∃ s', Swap 1%nat 2%nat (exec two_groups init) = Ok tt s' ∧
    handles s' !! 1%nat = Some (mkSharedPtr 4128 200) ∧
    handles s' !! 2%nat = Some (mkSharedPtr 4096 100) ∧
    Swap 1%nat 2%nat s' = Ok tt (exec two_groups init).
Proof.
  destruct (Swap_twice (T:=Z) (exec two_groups init) 1%nat 2%nat
              (mkSharedPtr 4096 100) (mkSharedPtr 4128 200))
    as (s' & Hrun & Hx & Hy & _ & _ & _ & _ & Hback);
    [vm_compute; reflexivity | vm_compute; reflexivity |].
  exists s'. split_and!; [exact Hrun | exact Hx | exact Hy | exact Hback].
Defined.

(** [SharedPtr<const int> a(new int(7)); SharedPtr<int> b(new int(8));
    a = b;] where [a] is the last owner of its group. *)
Lemma assign_copy_between_groups_witness :
  ∃ s', assign_copy 1%nat 2%nat (exec two_groups init) = Ok tt s' ∧
    handles s' !! 1%nat = Some (mkSharedPtr 4128 200) ∧
    blocks s' !! 4128 = Some (mkBlock 2 1 (ControlBlockPtr 200)) ∧
    blocks s' !! 4096 = None ∧
    trace s' = [OnZeroStrongCall 4096; DeletePayload 100;
                OnZeroWeakCall 4096; DeleteBlock 4096].
Proof.
  destruct (assign_copy_between_groups (T:=Z) (exec two_groups init)
              1%nat 2%nat (mkSharedPtr 4096 100) (mkSharedPtr 4128 200)
              (mkBlock 1 1 (ControlBlockPtr 100))
              (mkBlock 1 1 (ControlBlockPtr 200)))
    as (s' & Hrun & Hhs & Hnew & Hold);
    [vm_compute; reflexivity | vm_compute; reflexivity
     | done | done | done | done
     | vm_compute; reflexivity | vm_compute; reflexivity
     | unfold int_min, int_max; simpl; lia
     | unfold int_min, int_max; simpl; lia |].
  rewrite decide_True in Hold by done. destruct Hold as (Hgone & _ & Htr).
  exists s'. split_and!; [exact Hrun | | exact Hnew | exact Hgone | ].
  - rewrite Hhs. apply lookup_insert_eq.
  - rewrite Htr. vm_compute. reflexivity.
Defined.

(** [SharedPtr<int> h(new int(7))] and three copies [SharedPtr<int> c(h)]:
    [UseCount()] is still 1. *)
Lemma clone_implicit_n_keeps_count_witness :
  ∃ s', clone_implicit_n 0%nat 1%nat 3 (exec one_owner init) = Ok tt s' ∧
    handles s' !! 3%nat = Some (mkSharedPtr 4096 100) ∧
    SharedPtr_UseCount 0%nat s' = Ok 1 s'.
Proof.
  destruct (clone_implicit_n_keeps_count (T:=Z) 3 (exec one_owner init)
              0%nat 1%nat (mkSharedPtr 4096 100))
    as (s' & Hrun & _ & _ & _ & _ & Hnew & Huse);
    [vm_compute; reflexivity | lia |].
  exists s'. split_and!; [exact Hrun | apply Hnew; lia |].
  apply Huse. vm_compute. reflexivity.
Defined.

(** [SharedPtr<int> a(new int(7)); SharedPtr<int> b(new int(8)); a = b;]:
    both handles then refer to the block of [b], whose count is still 1, and
    the block of [a] stays behind with count 1. *)
Lemma same_type_assignment_memberwise_witness :
  ∃ s', assign_copy_implicit 1%nat 2%nat (exec two_groups init) = Ok tt s' ∧
    handles s' !! 1%nat = Some (mkSharedPtr 4128 200) ∧
    handles s' !! 2%nat = Some (mkSharedPtr 4128 200) ∧
    blocks s' !! 4128 = Some (mkBlock 1 1 (ControlBlockPtr 200)) ∧
    blocks s' !! 4096 = Some (mkBlock 1 1 (ControlBlockPtr 100)) ∧
    trace s' = [].
Proof.
  destruct (same_type_assignment_memberwise (T:=Z) (exec two_groups init)
              1%nat 2%nat (mkSharedPtr 4096 100) (mkSharedPtr 4128 200))
    as (s' & Hrun & Hthis & Hrest & Hbl & _ & Htr & _);
    [vm_compute; reflexivity | vm_compute; reflexivity |].
  exists s'. split; [exact Hrun|]. split; [exact Hthis|].
  rewrite (Hrest 2%nat) by lia. rewrite Hbl, Htr.
  split_and!; vm_compute; reflexivity.
Defined.

Lemma SharedPtr_alias_shares_witness :
  ∃ s', SharedPtr_alias 1%nat 0%nat 104 (exec one_owner init) = Ok tt s' ∧
    Get 1%nat s' = Ok 104 s' ∧ Get 0%nat s' = Ok 100 s' ∧
    SharedPtr_UseCount 1%nat s' = Ok 2 s' ∧
    SharedPtr_UseCount 0%nat s' = Ok 2 s'.
Proof.
  destruct (SharedPtr_alias_shares (T:=Z) (exec one_owner init) 1%nat 0%nat
              (mkSharedPtr 4096 100) (mkBlock 1 1 (ControlBlockPtr 100)) 104)
    as (s' & Hrun & _ & Hother & Hget & Huse1 & Huse0 & _);
    [vm_compute; reflexivity | done | done | vm_compute; reflexivity
     | unfold int_min, int_max; simpl; lia |].
  exists s'. split_and!; [exact Hrun | exact Hget | | exact Huse1 | exact Huse0].
  by apply (get_ptr_run s' 0%nat _ Hother).
Defined.

End SharedExtra.

(** * Further properties of unique.h *)

Module UniqueExtra.
Import Unique UniqueSpec.

Section Facts.
Context {Deleter : Type}.
Implicit Types (u : UniquePtr (Deleter:=Deleter)) (w : calls (Deleter:=Deleter)).

Lemma destroyed_invoke (d : Deleter) p w :
  destroyed (invoke d p w) = destroyed w ++ non_null [p].
Proof.
  unfold destroyed, invoke, non_null. by rewrite fmap_app, filter_app.
Qed.

Lemma non_null_cons_null l : non_null (nullptr :: l) = non_null l.
Proof.
  unfold non_null. apply filter_cons_False. intros Hn. by apply Hn.
Qed.

Lemma non_null_cons q l : q ≠ nullptr → non_null (q :: l) = q :: non_null l.
Proof. intros Hq. unfold non_null. by apply filter_cons_True. Qed.

Lemma non_null_null : non_null [nullptr] = [].
Proof. by rewrite non_null_cons_null. Qed.

(** X14: [Reset] with the pointer that [Release] returned restores the
    handle, and neither step calls the deleter. *)
Theorem Release_then_Reset u w :
  Reset (Release u w).1.2 (Release u w).1.1 (Release u w).2 = (u, w).
Proof.
  by destruct u as [p d].
Qed.

(** X15: [Swap] exchanges pointer and deleter together: destroying the two
    handles afterwards passes each pointer to the deleter it came with, and
    swapping twice restores both handles. *)
Theorem Swap_keeps_deleters (a b : UniquePtr (Deleter:=Deleter)) w :
  UniquePtr_dtor (Swap a b).2 (UniquePtr_dtor (Swap a b).1 w)
    = w ++ [(del_ b, ptr_ b); (del_ a, ptr_ a)] ∧
  Swap (Swap a b).1 (Swap a b).2 = (a, b).
Proof.
  destruct a as [pa da], b as [pb db].
  unfold Swap, UniquePtr_dtor, invoke. simpl.
  by rewrite <- app_assoc.
Qed.

(** X16: move assignment between handles holding different pointers calls
    the target's old deleter on the target's old pointer (also when that is
    null), gives the target the pointer and the deleter of the source and
    leaves the source null; destroying both afterwards passes the source's
    pointer once to the source's deleter. *)
Theorem assign_move_transfers (this other : UniquePtr (Deleter:=Deleter)) w :
  ptr_ other ≠ ptr_ this →
  ∃ this' other' w', assign_move this other w = (this', other', w') ∧
    Get this' = ptr_ other ∧ GetDeleter this' = del_ other ∧
    Get other' = nullptr ∧
    w' = w ++ [(del_ this, ptr_ this)] ∧
    UniquePtr_dtor other' (UniquePtr_dtor this' w')
      = w ++ [(del_ this, ptr_ this); (del_ other, ptr_ other);
              (del_ other, nullptr)].
Proof.
  intros Hne. unfold assign_move. rewrite decide_False by done.
  eexists _, _, _. split; [reflexivity|].
  unfold UniquePtr_dtor, invoke. simpl.
  by rewrite <- !app_assoc.
Qed.

(** X17: the guard of move assignment compares the two pointers: when they
    are equal (two handles holding null, or one handle assigned to itself)
    nothing happens, and the deleter of the source is not taken over. *)
Theorem assign_move_same_pointer (this other : UniquePtr (Deleter:=Deleter)) w :
  ptr_ other = ptr_ this →
  assign_move this other w = (this, other, w).
Proof. intros Heq. unfold assign_move. by rewrite decide_True. Qed.

(** X18: [Reset(p)] installs [p] and keeps the deleter; it calls the deleter
    on the old pointer only when that is not null.  Destroying the handle
    afterwards completes the picture: the old pointer and [p] are each
    handed to the deleter once. *)
Theorem Reset_then_dtor u p w :
  ∃ u' w', Reset u p w = (u', w') ∧
    Get u' = p ∧ GetDeleter u' = GetDeleter u ∧
    w' = w ++ (if decide (ptr_ u = nullptr) then [] else [(del_ u, ptr_ u)]) ∧
    destroyed (UniquePtr_dtor u' w') = destroyed w ++ non_null [ptr_ u; p].
Proof.
  destruct u as [q d]. unfold Reset. simpl.
  eexists _, _. split; [reflexivity|]. simpl. split_and!; try done.
  - destruct (decide (q = nullptr)) as [->|Hq].
    + rewrite decide_False by (intros Hn; by apply Hn). by rewrite app_nil_r.
    + by rewrite decide_True.
  - unfold UniquePtr_dtor. simpl. rewrite destroyed_invoke.
    destruct (decide (q = nullptr)) as [->|Hq].
    + rewrite decide_False by (intros Hn; by apply Hn).
      by rewrite non_null_cons_null.
    + rewrite decide_True by done. rewrite destroyed_invoke.
      rewrite <- app_assoc. f_equal.
      by rewrite (non_null_cons q []), (non_null_cons q [p]) by done.
Qed.

(** X19: assignment of [nullptr] calls the deleter on the held pointer
    without testing it and leaves the handle null; with the destructor that
    follows, the held pointer has been handed to the deleter once. *)
Theorem assign_null_then_dtor u w :
  ∃ u' w', assign_null u w = (u', w') ∧
    Get u' = nullptr ∧ to_bool u' = false ∧
    w' = w ++ [(del_ u, ptr_ u)] ∧
    destroyed (UniquePtr_dtor u' w') = destroyed w ++ non_null [ptr_ u].
Proof.
  destruct u as [q d]. unfold assign_null. simpl.
  eexists _, _. split; [reflexivity|]. split_and!; try done.
  unfold UniquePtr_dtor. simpl.
  by rewrite !destroyed_invoke, non_null_null, app_nil_r.
Qed.

End Facts.

(** ** Instances, with deleters named by numbers *)

Lemma assign_move_transfers_witness :
  ∃ this' other' w',
    assign_move (mkUniquePtr 100 1%nat) (mkUniquePtr 200 2%nat) []
      = (this', other', w') ∧
    Get this' = 200 ∧ GetDeleter this' = 2%nat ∧ Get other' = nullptr ∧
    w' = [(1%nat, 100)] ∧
    UniquePtr_dtor other' (UniquePtr_dtor this' w')
      = [(1%nat, 100); (2%nat, 200); (2%nat, nullptr)].
Proof.
  apply (assign_move_transfers (mkUniquePtr 100 1%nat)
           (mkUniquePtr 200 2%nat) []).
  simpl. discriminate.
Defined.

(** Two handles holding null, with different deleters. *)
Lemma assign_move_same_pointer_witness :
  assign_move (mkUniquePtr nullptr 1%nat) (mkUniquePtr nullptr 2%nat) []
  = (mkUniquePtr nullptr 1%nat, mkUniquePtr nullptr 2%nat, []).
Proof.
  apply (assign_move_same_pointer (mkUniquePtr nullptr 1%nat)
           (mkUniquePtr nullptr 2%nat) []).
  reflexivity.
Defined.

End UniqueExtra.
